(** * inv_trader.execution: order/strategy correlation of the execution clients

    A shallow embedding of [src/inv_trader/execution.py]: the abstract
    [ExecutionClient] with its two registries and its inbound event handler,
    and the two concrete clients [MockExecClient] and [LiveExecClient].

    Python objects are values of [PyObject]; the mutable client, the output
    of [print], the calls made on strategy objects and the two impure
    library calls ([datetime.datetime.utcnow] and [uuid.uuid4]) live in an
    explicit [World] that every method threads through the [Py] monad.  An
    exception leaves the world as it was when it was raised. *)

From stdpp Require Import gmap strings list fin_maps.

Open Scope string_scope.
Open Scope list_scope.

(** ** Data model *)

Abbreviation StrategyId := string (only parsing).
Abbreviation OrderId := string (only parsing).

(** Values of [datetime.datetime] and [uuid.UUID], and of [decimal.Decimal]
    (sign and coefficient, and exponent). *)
Abbreviation datetime := Z (only parsing).
Abbreviation UUID := Z (only parsing).

Record Decimal : Type := mkDecimal { coefficient : Z; exponent : Z }.

(** Modelled from the spec: [inv_trader.model.objects.Symbol] and
    [inv_trader.model.enums.OrderSide] are imported by the source but not
    part of it; the spec's data model gives an order a symbol and a side. *)
Record Symbol : Type := mkSymbol { code : string; venue : string }.

Inductive OrderSide : Type := BUY | SELL.

(** Modelled from the spec: [inv_trader.model.order.Order] is imported by
    the source but not part of it.  The source reads [order.id] and
    [order.symbol]; the spec adds the side and the order type. *)
Module Order.
Record t : Type := mk
  { id : OrderId; symbol : Symbol; side : OrderSide; order_type : string }.
End Order.

(** Modelled from the spec: the classes of [inv_trader.model.events] are
    imported by the source but not part of it.  An [OrderEvent] carries the
    order id and symbol, the fields of the base [Event] ([event_id],
    [event_timestamp]), the time the fact occurred, and the extra fields of
    its variant. *)
Inductive OrderEventKind : Type :=
| Submitted
| Accepted
| Rejected (reason : string)
| Working (broker_order_id : string)
| Expired
| Modified (broker_order_id : string) (new_price : Decimal)
| Cancelled
| CancelReject (reason : string).

Module OrderEvent.
Record t : Type := mk
  { symbol : Symbol;
    order_id : OrderId;
    kind : OrderEventKind;
    occurred_timestamp : datetime;
    event_id : UUID;
    event_timestamp : datetime }.
End OrderEvent.

(** The constructors as the source calls them, positional arguments in the
    order of the call sites. *)
Definition OrderSubmitted (order_symbol : Symbol) (order_id : OrderId)
    (submitted_time : datetime) (event_id : UUID) (event_timestamp : datetime)
    : OrderEvent.t :=
  OrderEvent.mk order_symbol order_id Submitted submitted_time event_id event_timestamp.

Definition OrderAccepted (order_symbol : Symbol) (order_id : OrderId)
    (accepted_time : datetime) (event_id : UUID) (event_timestamp : datetime)
    : OrderEvent.t :=
  OrderEvent.mk order_symbol order_id Accepted accepted_time event_id event_timestamp.

Definition OrderWorking (order_symbol : Symbol) (order_id : OrderId)
    (broker_order_id : string)
    (working_time : datetime) (event_id : UUID) (event_timestamp : datetime)
    : OrderEvent.t :=
  OrderEvent.mk order_symbol order_id (Working broker_order_id)
                working_time event_id event_timestamp.

Definition OrderCancelled (order_symbol : Symbol) (order_id : OrderId)
    (cancelled_time : datetime) (event_id : UUID) (event_timestamp : datetime)
    : OrderEvent.t :=
  OrderEvent.mk order_symbol order_id Cancelled cancelled_time event_id event_timestamp.

Definition OrderModified (order_symbol : Symbol) (order_id : OrderId)
    (broker_order_id : string) (new_price : Decimal)
    (modified_time : datetime) (event_id : UUID) (event_timestamp : datetime)
    : OrderEvent.t :=
  OrderEvent.mk order_symbol order_id (Modified broker_order_id new_price)
                modified_time event_id event_timestamp.

(** Modelled from the spec: [inv_trader.strategy.TradeStrategy] is imported
    by the source but not part of it.  The source uses three things of a
    strategy: [str(strategy)], its bound method [_update_events] (the event
    sink of the spec) and [_register_execution_client].  A strategy object
    is identified by [obj]; its sink is the bound method of that object. *)
Module TradeStrategy.
Record t : Type := mk { obj : nat; str : StrategyId }.
End TradeStrategy.

(** A callable stored in the strategy registry: [strategy._update_events]
    of the strategy object [sink_of]. *)
Record Sink : Type := BoundUpdateEvents { sink_of : nat }.

#[global] Instance Sink_eq_dec : EqDecision Sink.
Proof. solve_decision. Defined.

(** The objects a method of the client can be handed.  [PyEvent] is an
    [Event] that is not an [OrderEvent]; [PyOther] is an object of any other
    class, named by [cls]. *)
Inductive PyObject : Type :=
| PyOrder (o : Order.t)
| PyStrategy (s : TradeStrategy.t)
| PyOrderEvent (e : OrderEvent.t)
| PyEvent (event_id : UUID) (event_timestamp : datetime)
| PyOther (cls : string).

Definition type_name (x : PyObject) : string :=
  match x with
  | PyOrder _ => "inv_trader.model.order.Order"
  | PyStrategy _ => "inv_trader.strategy.TradeStrategy"
  | PyOrderEvent _ => "inv_trader.model.events.OrderEvent"
  | PyEvent _ _ => "inv_trader.model.events.Event"
  | PyOther cls => cls
  end.

(** [str(type(x))] *)
Definition type_str (x : PyObject) : string :=
  "<class '" +:+ type_name x +:+ "'>".

Definition isinstance_Event (x : PyObject) : bool :=
  match x with PyOrderEvent _ | PyEvent _ _ => true | _ => false end.

Definition isinstance_OrderEvent (x : PyObject) : bool :=
  match x with PyOrderEvent _ => true | _ => false end.

(** ** Exceptions and the world *)

Inductive Exn : Type :=
| TypeError (msg : string)
| ValueError (msg : string)
| KeyError (key : string)
| AttributeError (msg : string)
| NotImplementedError (msg : string).

(** What a call leaves behind outside the client: a line printed by [_log],
    an event handed to a sink, a call of [_register_execution_client] on a
    strategy object. *)
Inductive Effect : Type :=
| Printed (message : string)
| Delivered (sink : Sink) (event : OrderEvent.t)
| ClientRegistered (strategy_obj : nat).

(** The instance attributes of an [ExecutionClient]. *)
Record Client : Type := mkClient
  { _registered_strategies : gmap StrategyId Sink;
    _order_index : gmap OrderId StrategyId }.

(** The world: the client, the effects so far (oldest first), and the two
    sources the mock client draws from.  The [n]-th call of [utcnow] returns
    [utcnow_src n], the [n]-th call of [uuid4] returns [uuid4_src n]. *)
Record World : Type := mkWorld
  { client : Client;
    effects : list Effect;
    utcnow_src : nat -> datetime;
    utcnow_calls : nat;
    uuid4_src : nat -> UUID;
    uuid4_calls : nat }.

Inductive Outcome (A : Type) : Type :=
| Returned (a : A)
| Raised (e : Exn).
Arguments Returned {A} a.
Arguments Raised {A} e.

Definition Py (A : Type) : Type := World -> Outcome A * World.

#[global] Instance Py_ret : MRet Py := fun A a w => (Returned a, w).

#[global] Instance Py_bind : MBind Py := fun A B k c w =>
  match c w with
  | (Returned a, w') => k a w'
  | (Raised e, w') => (Raised e, w')
  end.

Definition raise {A : Type} (e : Exn) : Py A := fun w => (Raised e, w).

(** An expression statement: the value is built and dropped. *)
Definition discard {A : Type} (_ : A) : Py unit := mret tt.

(** World updates: store the client, append an effect, count a call. *)
Definition put_client (c : Client) (w : World) : World :=
  mkWorld c (effects w) (utcnow_src w) (utcnow_calls w) (uuid4_src w) (uuid4_calls w).

Definition record (e : Effect) (w : World) : World :=
  mkWorld (client w) (effects w ++ [e])
          (utcnow_src w) (utcnow_calls w) (uuid4_src w) (uuid4_calls w).

Definition tick_utcnow (w : World) : World :=
  mkWorld (client w) (effects w)
          (utcnow_src w) (S (utcnow_calls w)) (uuid4_src w) (uuid4_calls w).

Definition tick_uuid4 (w : World) : World :=
  mkWorld (client w) (effects w)
          (utcnow_src w) (utcnow_calls w) (uuid4_src w) (S (uuid4_calls w)).

Definition get_client : Py Client := fun w => (Returned (client w), w).

Definition set_client (c : Client) : Py unit := fun w => (Returned tt, put_client c w).

Definition emit (e : Effect) : Py unit := fun w => (Returned tt, record e w).

(** [datetime.datetime.utcnow()] *)
Definition utcnow : Py datetime := fun w =>
  (Returned (utcnow_src w (utcnow_calls w)), tick_utcnow w).

(** [uuid.uuid4()] *)
Definition uuid4 : Py UUID := fun w =>
  (Returned (uuid4_src w (uuid4_calls w)), tick_uuid4 w).

(** Attribute reads.  Only an [Order] has [id]; orders and order events
    have [symbol]. *)
Definition getattr_symbol (x : PyObject) : Py Symbol :=
  match x with
  | PyOrder o => mret (Order.symbol o)
  | PyOrderEvent e => mret (OrderEvent.symbol e)
  | _ => raise (AttributeError
           ("'" +:+ type_name x +:+ "' object has no attribute 'symbol'"))
  end.

Definition getattr_id (x : PyObject) : Py OrderId :=
  match x with
  | PyOrder o => mret (Order.id o)
  | _ => raise (AttributeError
           ("'" +:+ type_name x +:+ "' object has no attribute 'id'"))
  end.

(** ** [class ExecutionClient] *)

Module ExecutionClient.

(** [__init__] *)
Definition __init__ : Client :=
  {| _registered_strategies := ∅; _order_index := ∅ |}.

(** [_log]: no logger, prints. *)
Definition _log (message : string) : Py unit := emit (Printed message).

(** The [match] is the [isinstance] check; [strategy._update_events] is
    stored and [strategy._register_execution_client(self)] called last. *)
Definition register_strategy (strategy : PyObject) : Py unit :=
  match strategy with
  | PyStrategy s =>
      let strategy_id := TradeStrategy.str s in
      self ← get_client;
      if decide (strategy_id ∈ dom (_registered_strategies self)) then
        raise (ValueError "The strategy does not have a unique name and label.")
      else
        set_client
          {| _registered_strategies :=
               <[strategy_id := BoundUpdateEvents (TradeStrategy.obj s)]>
                 (_registered_strategies self);
             _order_index := _order_index self |};;
        emit (ClientRegistered (TradeStrategy.obj s))
  | _ =>
      raise (TypeError ("The strategy is not a type of TradeStrategy (was "
                          +:+ type_str strategy +:+ ")."))
  end.

(** The bodies of the abstract methods.  [__metaclass__] is a plain class
    attribute in Python 3, so the class can be instantiated and these
    bodies run when a subclass does not override them. *)
Definition not_implemented {A : Type} : Py A :=
  raise (NotImplementedError "Method must be implemented in the execution client.").

Definition connect : Py unit := not_implemented.
Definition disconnect : Py unit := not_implemented.
Definition submit_order (order : PyObject) (strategy_id : StrategyId) : Py unit :=
  not_implemented.
Definition cancel_order (order : PyObject) : Py unit := not_implemented.
Definition modify_order (order : PyObject) (new_price : Decimal) : Py unit :=
  not_implemented.

(** The [match] is the [isinstance] check. *)
Definition _register_order (order : PyObject) (strategy_id : StrategyId) : Py unit :=
  match order with
  | PyOrder o =>
      self ← get_client;
      if decide (Order.id o ∈ dom (_order_index self)) then
        raise (ValueError "The order does not have a unique id.")
      else
        set_client
          {| _registered_strategies := _registered_strategies self;
             _order_index := <[Order.id o := strategy_id]> (_order_index self) |}
  | _ =>
      raise (TypeError ("The order is not a type of Order (was "
                          +:+ type_str order +:+ ")."))
  end.

(** The check of the argument builds a [TypeError] and drops it.  In
    [self._registered_strategies[strategy_id](event)] the subscript raises
    [KeyError] on a missing key and the call hands the event to the sink;
    the [return] that follows skips the warning. *)
Definition _on_event (event : PyObject) : Py unit :=
  (if negb (isinstance_Event event) then
     discard (TypeError ("The event is not of type Event (was "
                           +:+ type_str event +:+ ")."))
   else mret tt);;
  match event with
  | PyOrderEvent e =>
      let order_id := OrderEvent.order_id e in
      self ← get_client;
      match _order_index self !! order_id with
      | Some strategy_id =>
          match _registered_strategies self !! strategy_id with
          | Some sink => emit (Delivered sink e)
          | None => raise (KeyError strategy_id)
          end
      | None =>
          _log ("Execution: Warning given event order id not contained in index "
                  +:+ order_id)
      end
  | _ => mret tt
  end.

End ExecutionClient.

(** ** [class MockExecClient(ExecutionClient)] *)

Module MockExecClient.

Definition connect : Py unit := ExecutionClient._log "MockExecClient connected.".

Definition disconnect : Py unit := ExecutionClient._log "MockExecClient disconnected.".

Definition submit_order (order : PyObject) (strategy_id : StrategyId) : Py unit :=
  ExecutionClient._register_order order strategy_id;;
  order_submitted ←
    (s ← getattr_symbol order; i ← getattr_id order;
     t ← utcnow; u ← uuid4; n ← utcnow;
     mret (OrderSubmitted s i t u n));
  order_accepted ←
    (s ← getattr_symbol order; i ← getattr_id order;
     t ← utcnow; u ← uuid4; n ← utcnow;
     mret (OrderAccepted s i t u n));
  order_working ←
    (s ← getattr_symbol order; i ← getattr_id order; b ← getattr_id order;
     t ← utcnow; u ← uuid4; n ← utcnow;
     mret (OrderWorking s i ("B" +:+ b) t u n));
  ExecutionClient._on_event (PyOrderEvent order_submitted);;
  ExecutionClient._on_event (PyOrderEvent order_accepted);;
  ExecutionClient._on_event (PyOrderEvent order_working).

Definition cancel_order (order : PyObject) : Py unit :=
  order_cancelled ←
    (s ← getattr_symbol order; i ← getattr_id order;
     t ← utcnow; u ← uuid4; n ← utcnow;
     mret (OrderCancelled s i t u n));
  ExecutionClient._on_event (PyOrderEvent order_cancelled).

Definition modify_order (order : PyObject) (new_price : Decimal) : Py unit :=
  order_modified ←
    (s ← getattr_symbol order; i ← getattr_id order; b ← getattr_id order;
     t ← utcnow; u ← uuid4; n ← utcnow;
     mret (OrderModified s i ("B" +:+ b) new_price t u n));
  ExecutionClient._on_event (PyOrderEvent order_modified).

End MockExecClient.

(** ** [class LiveExecClient(ExecutionClient)] *)

Module LiveExecClient.

Definition connect : Py unit := ExecutionClient._log "LiveExecClient connected.".

Definition disconnect : Py unit := ExecutionClient._log "Execution client disconnected.".

Definition submit_order (order : PyObject) (strategy_id : StrategyId) : Py unit :=
  ExecutionClient._register_order order strategy_id.

Definition cancel_order (order : PyObject) : Py unit := mret tt.

Definition modify_order (order : PyObject) (new_price : Decimal) : Py unit := mret tt.

End LiveExecClient.

(** ** Method resolution and runs *)

(** The class of [self]: [ExecutionClient] itself, or one of its two
    subclasses. *)
Inductive ClientClass : Type := Abstract | Mock | Live.

Definition submit_order (cls : ClientClass) : PyObject -> StrategyId -> Py unit :=
  match cls with
  | Abstract => ExecutionClient.submit_order
  | Mock => MockExecClient.submit_order
  | Live => LiveExecClient.submit_order
  end.

Definition cancel_order (cls : ClientClass) : PyObject -> Py unit :=
  match cls with
  | Abstract => ExecutionClient.cancel_order
  | Mock => MockExecClient.cancel_order
  | Live => LiveExecClient.cancel_order
  end.

Definition modify_order (cls : ClientClass) : PyObject -> Decimal -> Py unit :=
  match cls with
  | Abstract => ExecutionClient.modify_order
  | Mock => MockExecClient.modify_order
  | Live => LiveExecClient.modify_order
  end.

Definition connect (cls : ClientClass) : Py unit :=
  match cls with
  | Abstract => ExecutionClient.connect
  | Mock => MockExecClient.connect
  | Live => LiveExecClient.connect
  end.

Definition disconnect (cls : ClientClass) : Py unit :=
  match cls with
  | Abstract => ExecutionClient.disconnect
  | Mock => MockExecClient.disconnect
  | Live => LiveExecClient.disconnect
  end.

(** One call on a client from outside. *)
Inductive Call : Type :=
| CallRegisterStrategy (strategy : PyObject)
| CallConnect
| CallDisconnect
| CallSubmitOrder (order : PyObject) (strategy_id : StrategyId)
| CallCancelOrder (order : PyObject)
| CallModifyOrder (order : PyObject) (new_price : Decimal)
| CallOnEvent (event : PyObject).

Definition perform (cls : ClientClass) (c : Call) : Py unit :=
  match c with
  | CallRegisterStrategy s => ExecutionClient.register_strategy s
  | CallConnect => connect cls
  | CallDisconnect => disconnect cls
  | CallSubmitOrder o sid => submit_order cls o sid
  | CallCancelOrder o => cancel_order cls o
  | CallModifyOrder o p => modify_order cls o p
  | CallOnEvent e => ExecutionClient._on_event e
  end.

(** A run: the calls are made one after the other, each caller catching what
    its call raises.  The result is the outcome of every call, in order, and
    the final world. *)
Fixpoint run (cls : ClientClass) (calls : list Call) (w : World)
    : list (Outcome unit) * World :=
  match calls with
  | [] => ([], w)
  | c :: rest =>
      let '(r, w1) := perform cls c w in
      let '(rs, w2) := run cls rest w1 in
      (r :: rs, w2)
  end.

(** A freshly constructed client in a process whose clock and UUID source
    are [clock] and [uuids]. *)
Definition fresh (clock : nat -> datetime) (uuids : nat -> UUID) : World :=
  {| client := ExecutionClient.__init__;
     effects := [];
     utcnow_src := clock; utcnow_calls := 0;
     uuid4_src := uuids; uuid4_calls := 0 |}.

(** What reached the sink [s], in order. *)
Definition received (s : Sink) (es : list Effect) : list OrderEvent.t :=
  omap (fun e => match e with
                 | Delivered s' ev => if decide (s' = s) then Some ev else None
                 | _ => None
                 end) es.

(** Every event handed to any sink, in order. *)
Definition delivered (es : list Effect) : list (Sink * OrderEvent.t) :=
  omap (fun e => match e with Delivered s ev => Some (s, ev) | _ => None end) es.


(** ** The words of the specification *)

(** What an adapter's [submit_order] does after its call of
    [_register_order]: the mock client builds the three events and hands
    each to [_on_event]; the live client does nothing more; the abstract
    class never gets there. *)
Definition venue_action (cls : ClientClass) (order : PyObject) : Py unit :=
  match cls with
  | Abstract => mret tt
  | Mock =>
      order_submitted ←
        (s ← getattr_symbol order; i ← getattr_id order;
         t ← utcnow; u ← uuid4; n ← utcnow;
         mret (OrderSubmitted s i t u n));
      order_accepted ←
        (s ← getattr_symbol order; i ← getattr_id order;
         t ← utcnow; u ← uuid4; n ← utcnow;
         mret (OrderAccepted s i t u n));
      order_working ←
        (s ← getattr_symbol order; i ← getattr_id order; b ← getattr_id order;
         t ← utcnow; u ← uuid4; n ← utcnow;
         mret (OrderWorking s i ("B" +:+ b) t u n));
      ExecutionClient._on_event (PyOrderEvent order_submitted);;
      ExecutionClient._on_event (PyOrderEvent order_accepted);;
      ExecutionClient._on_event (PyOrderEvent order_working)
  | Live => mret tt
  end.

(** An event without the three fields that come from [uuid4] and [utcnow]:
    what is left is the variant with its extra fields, the order id and the
    symbol. *)
Definition unstamped (e : OrderEvent.t) : OrderEvent.t :=
  OrderEvent.mk (OrderEvent.symbol e) (OrderEvent.order_id e) (OrderEvent.kind e) 0 0 0.

Definition unstamp (eff : Effect) : Effect :=
  match eff with
  | Delivered s e => Delivered s (unstamped e)
  | _ => eff
  end.

(** The three events of a submission and the event of a modification, as
    the mock client builds them in the world [w]. *)
Definition submitted_in (o : Order.t) (w : World) : OrderEvent.t :=
  OrderSubmitted (Order.symbol o) (Order.id o)
    (utcnow_src w (utcnow_calls w))
    (uuid4_src w (uuid4_calls w))
    (utcnow_src w (1 + utcnow_calls w)).

Definition accepted_in (o : Order.t) (w : World) : OrderEvent.t :=
  OrderAccepted (Order.symbol o) (Order.id o)
    (utcnow_src w (2 + utcnow_calls w))
    (uuid4_src w (1 + uuid4_calls w))
    (utcnow_src w (3 + utcnow_calls w)).

Definition working_in (o : Order.t) (w : World) : OrderEvent.t :=
  OrderWorking (Order.symbol o) (Order.id o) ("B" +:+ Order.id o)
    (utcnow_src w (4 + utcnow_calls w))
    (uuid4_src w (2 + uuid4_calls w))
    (utcnow_src w (5 + utcnow_calls w)).

Definition modified_in (o : Order.t) (p : Decimal) (w : World) : OrderEvent.t :=
  OrderModified (Order.symbol o) (Order.id o) ("B" +:+ Order.id o) p
    (utcnow_src w (utcnow_calls w))
    (uuid4_src w (uuid4_calls w))
    (utcnow_src w (1 + utcnow_calls w)).

(** Two worlds that differ at most in what [uuid4] and [utcnow] put into
    the events: same client, same effects up to the stamps. *)
Definition alike (w1 w2 : World) : Prop :=
  client w1 = client w2 /\ map unstamp (effects w1) = map unstamp (effects w2).

(** Two worlds whose sources return the same values: same client, same
    effects, same position in sources that agree everywhere. *)
Definition same (w1 w2 : World) : Prop :=
  client w1 = client w2 /\ effects w1 = effects w2 /\
  utcnow_calls w1 = utcnow_calls w2 /\ uuid4_calls w1 = uuid4_calls w2 /\
  (forall n, utcnow_src w1 n = utcnow_src w2 n) /\
  (forall n, uuid4_src w1 n = uuid4_src w2 n).

(** ** Further vocabulary *)

(** The event of a cancellation, as the mock client builds it in the world
    [w]. *)
Definition cancelled_in (o : Order.t) (w : World) : OrderEvent.t :=
  OrderCancelled (Order.symbol o) (Order.id o)
    (utcnow_src w (utcnow_calls w))
    (uuid4_src w (uuid4_calls w))
    (utcnow_src w (1 + utcnow_calls w)).

(** The calls whose method writes to a registry, and the calls of the
    inbound handler. *)
Definition registers (c : Call) : bool :=
  match c with
  | CallRegisterStrategy _ | CallSubmitOrder _ _ => true
  | _ => false
  end.

Definition is_on_event (c : Call) : bool :=
  match c with CallOnEvent _ => true | _ => false end.

(** Every event a sink has received is of an order the index gives to a
    strategy whose registered sink is that sink. *)
Definition routed (w : World) : Prop :=
  forall sink e, Delivered sink e ∈ effects w ->
    exists sid,
      _order_index (client w) !! OrderEvent.order_id e = Some sid /\
      _registered_strategies (client w) !! sid = Some sink.

(** The [event_id] of every delivered event, in order of delivery. *)
Definition event_ids (es : list Effect) : list UUID :=
  map (fun d => OrderEvent.event_id d.2) (delivered es).

(** The broker order id of an event that carries one is ["B"] followed by
    the order id. *)
Definition broker_id_ok (e : OrderEvent.t) : Prop :=
  match OrderEvent.kind e with
  | Working b | Modified b _ => b = "B" +:+ OrderEvent.order_id e
  | _ => True
  end.

(** ** Sample values *)

Definition S_1 : TradeStrategy.t := TradeStrategy.mk 1 "S-1".
Definition S_1' : TradeStrategy.t := TradeStrategy.mk 2 "S-1".
Definition S_2 : TradeStrategy.t := TradeStrategy.mk 3 "S-2".
Definition O_1 : Order.t := Order.mk "O-1" (mkSymbol "X" "SIM") BUY "MARKET".
Definition O_1' : Order.t := Order.mk "O-1" (mkSymbol "Y" "SIM") SELL "LIMIT".

Definition clock_a : nat -> Z := fun n => Z.of_nat n.
Definition clock_b : nat -> Z := fun n => Z.of_nat (n + 60).
Definition uuids_a : nat -> Z := fun n => Z.of_nat (1000 + n).
Definition uuids_b : nat -> Z := fun n => Z.of_nat (2000 + n).

(** A fresh process, and one in which [S_1] and [S_2] have registered. *)
Definition world_a : World := fresh clock_a uuids_a.
Definition world_b : World := fresh clock_b uuids_b.

Definition world_ready : World :=
  (run Mock [CallRegisterStrategy (PyStrategy S_1);
             CallRegisterStrategy (PyStrategy S_2)] world_a).2.

(** [O_1] submitted for [S_1] by the mock client, and then cancelled. *)
Definition world_submitted : World :=
  (MockExecClient.submit_order (PyOrder O_1) "S-1" world_ready).2.

Definition world_cancelled : World :=
  (run Mock [CallCancelOrder (PyOrder O_1)] world_submitted).2.

(** Further calls that leave the owner of [O_1] alone. *)
Definition later_calls : list Call :=
  [CallSubmitOrder (PyOrder O_1') "S-2";
   CallCancelOrder (PyOrder O_1);
   CallModifyOrder (PyOrder O_1) (mkDecimal 5 0);
   CallOnEvent (PyOrderEvent (OrderCancelled (mkSymbol "X" "SIM") "O-1" 1 2 3));
   CallRegisterStrategy (PyStrategy S_1')].

(** An event of an order nobody submitted. *)
Definition stray_event : OrderEvent.t :=
  OrderWorking (mkSymbol "X" "SIM") "O-999" "BO-999" 7 8 9.

(** A short session: two strategies register, [O_1] is submitted for
    [S_1], modified and cancelled. *)
Definition session : list Call :=
  [CallRegisterStrategy (PyStrategy S_1);
   CallRegisterStrategy (PyStrategy S_2);
   CallSubmitOrder (PyOrder O_1) "S-1";
   CallModifyOrder (PyOrder O_1) (mkDecimal 105 (-1));
   CallCancelOrder (PyOrder O_1)].

(** The first event of that session in the process of [world_a]. *)
Definition session_first_event : OrderEvent.t :=
  OrderSubmitted (mkSymbol "X" "SIM") "O-1" 0 1000 1.

(** Calls that are neither [register_strategy] nor [submit_order], and
    calls that do not enter the inbound handler. *)
Definition quiet_calls : list Call :=
  [CallCancelOrder (PyOrder O_1);
   CallModifyOrder (PyOther "int") (mkDecimal 1 0);
   CallOnEvent (PyOrderEvent stray_event);
   CallConnect].

Definition outbound_calls : list Call :=
  [CallConnect;
   CallSubmitOrder (PyOrder O_1) "S-1";
   CallModifyOrder (PyOrder O_1) (mkDecimal 105 (-1));
   CallCancelOrder (PyOrder O_1);
   CallDisconnect].

(** ** Equations of the methods *)

Ltac py_unfold :=
  unfold ExecutionClient._register_order, ExecutionClient.register_strategy,
    ExecutionClient._on_event, ExecutionClient._log,
    ExecutionClient.not_implemented,
    discard, raise, emit, set_client, get_client, utcnow, uuid4,
    mbind, mret, Py_bind, Py_ret in *.

Lemma register_order_eq (o : Order.t) (sid : StrategyId) (w : World) :
  ExecutionClient._register_order (PyOrder o) sid w =
  match _order_index (client w) !! Order.id o with
  | Some _ => (Raised (ValueError "The order does not have a unique id."), w)
  | None =>
      (Returned tt,
       put_client {| _registered_strategies := _registered_strategies (client w);
                     _order_index := <[Order.id o := sid]> (_order_index (client w)) |} w)
  end.
Proof.
  py_unfold. destruct (decide _) as [Hin | Hout].
  - apply elem_of_dom in Hin as [sid' ->]. reflexivity.
  - apply not_elem_of_dom in Hout as ->. reflexivity.
Qed.

Lemma register_strategy_eq (s : TradeStrategy.t) (w : World) :
  ExecutionClient.register_strategy (PyStrategy s) w =
  match _registered_strategies (client w) !! TradeStrategy.str s with
  | Some _ =>
      (Raised (ValueError "The strategy does not have a unique name and label."), w)
  | None =>
      (Returned tt,
       record (ClientRegistered (TradeStrategy.obj s))
         (put_client
            {| _registered_strategies :=
                 <[TradeStrategy.str s := BoundUpdateEvents (TradeStrategy.obj s)]>
                   (_registered_strategies (client w));
               _order_index := _order_index (client w) |} w))
  end.
Proof.
  py_unfold. destruct (decide _) as [Hin | Hout].
  - apply elem_of_dom in Hin as [sink ->]. reflexivity.
  - apply not_elem_of_dom in Hout as ->. reflexivity.
Qed.

Lemma on_event_eq (e : OrderEvent.t) (w : World) :
  ExecutionClient._on_event (PyOrderEvent e) w =
  match _order_index (client w) !! OrderEvent.order_id e with
  | Some sid =>
      match _registered_strategies (client w) !! sid with
      | Some sink => (Returned tt, record (Delivered sink e) w)
      | None => (Raised (KeyError sid), w)
      end
  | None =>
      (Returned tt,
       record (Printed ("Execution: Warning given event order id not contained in index "
                          +:+ OrderEvent.order_id e)) w)
  end.
Proof.
  py_unfold. simpl.
  destruct (_order_index (client w) !! OrderEvent.order_id e) as [sid|]; [|reflexivity].
  destruct (_registered_strategies (client w) !! sid); reflexivity.
Qed.

Lemma on_event_other (x : PyObject) (w : World) :
  isinstance_OrderEvent x = false -> ExecutionClient._on_event x w = (Returned tt, w).
Proof. destruct x; simpl; intros H; try discriminate H; reflexivity. Qed.

Lemma mock_submit_eq (o : Order.t) (sid : StrategyId) (w : World) :
  MockExecClient.submit_order (PyOrder o) sid w =
  match _order_index (client w) !! Order.id o with
  | Some _ => (Raised (ValueError "The order does not have a unique id."), w)
  | None =>
      let c := {| _registered_strategies := _registered_strategies (client w);
                  _order_index := <[Order.id o := sid]> (_order_index (client w)) |} in
      match _registered_strategies (client w) !! sid with
      | Some sink =>
          (Returned tt,
           mkWorld c
             (effects w ++ [Delivered sink (submitted_in o w);
                            Delivered sink (accepted_in o w);
                            Delivered sink (working_in o w)])
             (utcnow_src w) (6 + utcnow_calls w) (uuid4_src w) (3 + uuid4_calls w))
      | None =>
          (Raised (KeyError sid),
           mkWorld c (effects w)
             (utcnow_src w) (6 + utcnow_calls w) (uuid4_src w) (3 + uuid4_calls w))
      end
  end.
Proof.
  unfold MockExecClient.submit_order.
  unfold mbind at 1. unfold Py_bind at 1.
  rewrite register_order_eq.
  destruct (_order_index (client w) !! Order.id o) as [sid'|] eqn:Hidx; [reflexivity|].
  unfold mbind, mret, Py_bind, Py_ret, utcnow, uuid4, getattr_symbol, getattr_id.
  cbn -[ExecutionClient._on_event].
  rewrite on_event_eq. cbn -[ExecutionClient._on_event].
  rewrite lookup_insert_eq.
  destruct (_registered_strategies (client w) !! sid) as [sink|] eqn:Hreg; [|reflexivity].
  rewrite on_event_eq. cbn -[ExecutionClient._on_event].
  rewrite lookup_insert_eq, Hreg.
  rewrite on_event_eq. cbn.
  rewrite lookup_insert_eq, Hreg.
  unfold record. cbn. rewrite <- !app_assoc. reflexivity.
Qed.

Lemma mock_modify_eq (o : Order.t) (p : Decimal) (w : World) :
  MockExecClient.modify_order (PyOrder o) p w =
  let w1 := mkWorld (client w) (effects w)
              (utcnow_src w) (2 + utcnow_calls w) (uuid4_src w) (1 + uuid4_calls w) in
  ExecutionClient._on_event (PyOrderEvent (modified_in o p w)) w1.
Proof. reflexivity. Qed.

Lemma mock_cancel_eq (o : Order.t) (w : World) :
  MockExecClient.cancel_order (PyOrder o) w =
  let w1 := mkWorld (client w) (effects w)
              (utcnow_src w) (2 + utcnow_calls w) (uuid4_src w) (1 + uuid4_calls w) in
  ExecutionClient._on_event
    (PyOrderEvent (OrderCancelled (Order.symbol o) (Order.id o)
                     (utcnow_src w (utcnow_calls w))
                     (uuid4_src w (uuid4_calls w))
                     (utcnow_src w (1 + utcnow_calls w)))) w1.
Proof. reflexivity. Qed.

(** ** Two runs side by side *)

Ltac split_world w :=
  let c := fresh "c" in
  let reg := fresh "reg" in
  let idx := fresh "idx" in
  destruct w as [c ? ? ? ? ?]; destruct c as [reg idx]; cbn in *.

Lemma perform_alike (cls : ClientClass) (c : Call) (w1 w2 : World) :
  alike w1 w2 ->
  (perform cls c w1).1 = (perform cls c w2).1 /\
  alike (perform cls c w1).2 (perform cls c w2).2.
Proof.
  unfold alike. intros [Hc He].
  split_world w1. split_world w2. injection Hc as -> ->.
  destruct c as [x| | |x sid|x|x p|x]; cbn [perform].
  - destruct x as [| s | | |]; try solve [cbn; rewrite ?map_app, ?He; auto].
    rewrite !register_strategy_eq. cbn.
    destruct (reg0 !! TradeStrategy.str s); cbn; rewrite ?map_app, ?He; auto.
  - destruct cls; cbn; rewrite ?map_app, ?He; auto.
  - destruct cls; cbn; rewrite ?map_app, ?He; auto.
  - destruct cls; cbn [submit_order]; [cbn; auto | |].
    + destruct x as [o| | | |]; try solve [cbn; auto].
      rewrite !mock_submit_eq. cbn.
      destruct (idx0 !! Order.id o); cbn; [auto|].
      destruct (reg0 !! sid); cbn; rewrite ?map_app, ?He; auto.
    + destruct x as [o| | | |]; try solve [cbn; auto].
      unfold LiveExecClient.submit_order. rewrite !register_order_eq. cbn.
      destruct (idx0 !! Order.id o); cbn; auto.
  - destruct cls; cbn [cancel_order]; [cbn; auto | | cbn; auto].
    destruct x as [o| | | |]; try solve [cbn; auto].
    rewrite !mock_cancel_eq. cbn zeta. rewrite !on_event_eq. cbn.
    destruct (idx0 !! Order.id o) as [sid|]; cbn; [|rewrite ?map_app, ?He; auto].
    destruct (reg0 !! sid); cbn; rewrite ?map_app, ?He; auto.
  - destruct cls; cbn [modify_order]; [cbn; auto | | cbn; auto].
    destruct x as [o| | | |]; try solve [cbn; auto].
    rewrite !mock_modify_eq. cbn zeta. rewrite !on_event_eq. cbn.
    destruct (idx0 !! Order.id o) as [sid|]; cbn; [|rewrite ?map_app, ?He; auto].
    destruct (reg0 !! sid); cbn; rewrite ?map_app, ?He; auto.
  - destruct x as [| | e | |]; try solve [cbn; auto].
    rewrite !on_event_eq. cbn.
    destruct (idx0 !! OrderEvent.order_id e) as [sid|]; cbn; [|rewrite ?map_app, ?He; auto].
    destruct (reg0 !! sid); cbn; rewrite ?map_app, ?He; auto.
Qed.

Lemma perform_same (cls : ClientClass) (c : Call) (w1 w2 : World) :
  same w1 w2 ->
  (perform cls c w1).1 = (perform cls c w2).1 /\
  same (perform cls c w1).2 (perform cls c w2).2.
Proof.
  unfold same. intros (Hc & He & Hn & Hm & Hclock & Huuid).
  split_world w1. split_world w2. injection Hc as -> ->. subst.
  assert (Hev : forall o p w w',
             utcnow_calls w = utcnow_calls w' -> uuid4_calls w = uuid4_calls w' ->
             (forall n, utcnow_src w n = utcnow_src w' n) ->
             (forall n, uuid4_src w n = uuid4_src w' n) ->
             submitted_in o w = submitted_in o w' /\ accepted_in o w = accepted_in o w' /\
             working_in o w = working_in o w' /\ modified_in o p w = modified_in o p w').
  { intros o p w w' E1 E2 E3 E4.
    unfold submitted_in, accepted_in, working_in, modified_in.
    rewrite E1, E2, !E3, !E4. auto. }
  destruct c as [x| | |x sid|x|x p|x]; cbn [perform].
  - destruct x as [| s | | |]; try solve [cbn; auto 10].
    rewrite !register_strategy_eq. cbn.
    destruct (reg0 !! TradeStrategy.str s); cbn; auto 10.
  - destruct cls; cbn; auto 10.
  - destruct cls; cbn; auto 10.
  - destruct cls; cbn [submit_order]; [cbn; auto 10 | |].
    + destruct x as [o| | | |]; try solve [cbn; auto 10].
      rewrite !mock_submit_eq. cbn.
      destruct (idx0 !! Order.id o); cbn; [auto 10|].
      match goal with
      | |- context [submitted_in o ?w] =>
          match goal with
          | |- context [submitted_in o ?w'] =>
              lazymatch w' with
              | w => fail
              | _ => destruct (Hev o (mkDecimal 0 0) w w') as (-> & -> & -> & _); auto
              end
          end
      end.
      destruct (reg0 !! sid); cbn; auto 10.
    + destruct x as [o| | | |]; try solve [cbn; auto 10].
      unfold LiveExecClient.submit_order. rewrite !register_order_eq. cbn.
      destruct (idx0 !! Order.id o); cbn; auto 10.
  - destruct cls; cbn [cancel_order]; [cbn; auto 10 | | cbn; auto 10].
    destruct x as [o| | | |]; try solve [cbn; auto 10].
    rewrite !mock_cancel_eq. cbn zeta. rewrite !on_event_eq. cbn.
    destruct (idx0 !! Order.id o) as [sid|]; cbn; [|auto 10].
    destruct (reg0 !! sid); cbn; rewrite ?Hclock, ?Huuid; auto 10.
  - destruct cls; cbn [modify_order]; [cbn; auto 10 | | cbn; auto 10].
    destruct x as [o| | | |]; try solve [cbn; auto 10].
    rewrite !mock_modify_eq. cbn zeta. rewrite !on_event_eq.
    unfold modified_in. cbn.
    destruct (idx0 !! Order.id o) as [sid|]; cbn; [|auto 10].
    destruct (reg0 !! sid); cbn; rewrite ?Hclock, ?Huuid; auto 10.
  - destruct x as [| | e | |]; try solve [cbn; auto 10].
    rewrite !on_event_eq. cbn.
    destruct (idx0 !! OrderEvent.order_id e) as [sid|]; cbn; [|auto 10].
    destruct (reg0 !! sid); cbn; auto 10.
Qed.

Lemma run_alike (cls : ClientClass) (calls : list Call) :
  forall w1 w2, alike w1 w2 ->
    (run cls calls w1).1 = (run cls calls w2).1 /\
    alike (run cls calls w1).2 (run cls calls w2).2.
Proof.
  induction calls as [|c rest IH]; intros w1 w2 H; [now split|].
  destruct (perform_alike cls c w1 w2 H) as [Hout Hnext].
  cbn [run].
  destruct (perform cls c w1) as [r1 v1], (perform cls c w2) as [r2 v2].
  cbn in Hout, Hnext. subst r2.
  destruct (IH v1 v2 Hnext) as [Houts Hlast].
  destruct (run cls rest v1) as [rs1 u1], (run cls rest v2) as [rs2 u2].
  cbn in *. now subst rs2.
Qed.

Lemma run_same (cls : ClientClass) (calls : list Call) :
  forall w1 w2, same w1 w2 ->
    (run cls calls w1).1 = (run cls calls w2).1 /\
    same (run cls calls w1).2 (run cls calls w2).2.
Proof.
  induction calls as [|c rest IH]; intros w1 w2 H; [now split|].
  destruct (perform_same cls c w1 w2 H) as [Hout Hnext].
  cbn [run].
  destruct (perform cls c w1) as [r1 v1], (perform cls c w2) as [r2 v2].
  cbn in Hout, Hnext. subst r2.
  destruct (IH v1 v2 Hnext) as [Houts Hlast].
  destruct (run cls rest v1) as [rs1 u1], (run cls rest v2) as [rs2 u2].
  cbn in *. now subst rs2.
Qed.

(** ** The registries only grow *)

Lemma on_event_client (x : PyObject) (w : World) :
  client (ExecutionClient._on_event x w).2 = client w.
Proof.
  destruct x as [| | e | |]; try reflexivity.
  rewrite on_event_eq.
  destruct (_order_index (client w) !! OrderEvent.order_id e) as [sid|]; [|reflexivity].
  destruct (_registered_strategies (client w) !! sid); reflexivity.
Qed.

Lemma perform_grows (cls : ClientClass) (c : Call) (w : World) :
  _order_index (client w) ⊆ _order_index (client (perform cls c w).2) /\
  _registered_strategies (client w) ⊆ _registered_strategies (client (perform cls c w).2).
Proof.
  destruct c as [x| | |x sid|x|x p|x]; cbn [perform].
  - destruct x as [| s | | |]; try solve [cbn; auto].
    rewrite register_strategy_eq.
    destruct (_registered_strategies (client w) !! TradeStrategy.str s) eqn:E; cbn; [auto|].
    split; [reflexivity | now apply insert_subseteq].
  - destruct cls; cbn; auto.
  - destruct cls; cbn; auto.
  - destruct cls; cbn [submit_order]; [cbn; auto | |].
    + destruct x as [o| | | |]; try solve [cbn; auto].
      rewrite mock_submit_eq.
      destruct (_order_index (client w) !! Order.id o) eqn:E; cbn; [auto|].
      destruct (_registered_strategies (client w) !! sid); cbn;
        (split; [now apply insert_subseteq | reflexivity]).
    + destruct x as [o| | | |]; try solve [cbn; auto].
      unfold LiveExecClient.submit_order. rewrite register_order_eq.
      destruct (_order_index (client w) !! Order.id o) eqn:E; cbn; [auto|].
      split; [now apply insert_subseteq | reflexivity].
  - destruct cls; cbn [cancel_order]; [cbn; auto | | cbn; auto].
    destruct x as [o| | | |]; try solve [cbn; auto].
    rewrite mock_cancel_eq. cbn zeta. now rewrite on_event_client.
  - destruct cls; cbn [modify_order]; [cbn; auto | | cbn; auto].
    destruct x as [o| | | |]; try solve [cbn; auto].
    rewrite mock_modify_eq. cbn zeta. now rewrite on_event_client.
  - now rewrite on_event_client.
Qed.

Lemma run_grows (cls : ClientClass) (calls : list Call) :
  forall w,
    _order_index (client w) ⊆ _order_index (client (run cls calls w).2) /\
    _registered_strategies (client w) ⊆ _registered_strategies (client (run cls calls w).2).
Proof.
  induction calls as [|c rest IH]; intros w; [now split|].
  destruct (perform_grows cls c w) as [Hi Hs].
  cbn [run]. destruct (perform cls c w) as [r w1]. cbn in Hi, Hs.
  destruct (IH w1) as [Hi' Hs'].
  destruct (run cls rest w1) as [rs w2]. cbn in *.
  split; etrans; eauto.
Qed.

Lemma register_order_raises (order : PyObject) (sid : StrategyId) (w : World) (e : Exn) :
  (ExecutionClient._register_order order sid w).1 = Raised e ->
  ExecutionClient._register_order order sid w = (Raised e, w).
Proof.
  destruct order as [o| | | |]; [|cbn; intros [= <-]; reflexivity ..].
  rewrite register_order_eq.
  destruct (_order_index (client w) !! Order.id o); cbn; [|discriminate].
  now intros [= <-].
Qed.

Lemma received_app (s : Sink) (es es' : list Effect) :
  received s (es ++ es') = received s es ++ received s es'.
Proof. apply omap_app. Qed.

(** ** The claims *)

(** C1: when the strategy is registered and the order id is new,
    [submit_order] of the mock client returns normally and has by then
    handed to the strategy's sink exactly [Submitted], [Accepted] and
    [Working] of that order, in this order, the last with broker order id
    ["B"] followed by the order id; nothing is printed and no other sink
    receives anything. *)
Theorem mock_submit_order_delivers
    (o : Order.t) (sid : StrategyId) (sink : Sink) (w : World) :
  _registered_strategies (client w) !! sid = Some sink ->
  _order_index (client w) !! Order.id o = None ->
  exists w',
    MockExecClient.submit_order (PyOrder o) sid w = (Returned tt, w') /\
    effects w' = effects w ++ [Delivered sink (submitted_in o w);
                               Delivered sink (accepted_in o w);
                               Delivered sink (working_in o w)] /\
    received sink (effects w') =
      received sink (effects w) ++ [submitted_in o w; accepted_in o w; working_in o w] /\
    (forall other, other <> sink ->
       received other (effects w') = received other (effects w)) /\
    OrderEvent.kind (submitted_in o w) = Submitted /\
    OrderEvent.kind (accepted_in o w) = Accepted /\
    OrderEvent.kind (working_in o w) = Working ("B" +:+ Order.id o) /\
    Forall (fun e => OrderEvent.order_id e = Order.id o /\
                     OrderEvent.symbol e = Order.symbol o)
           [submitted_in o w; accepted_in o w; working_in o w].
Proof.
  intros Hreg Hidx. rewrite mock_submit_eq, Hidx. cbn zeta. rewrite Hreg.
  eexists. split; [reflexivity|]. cbn [effects].
  split; [reflexivity|].
  split; [|split].
  - rewrite received_app. f_equal. cbn. now rewrite !decide_True.
  - intros other Hne. rewrite received_app. cbn.
    rewrite !decide_False by congruence. apply app_nil_r.
  - repeat split; repeat constructor.
Qed.

Lemma mock_submit_order_delivers_witness :
  _registered_strategies (client world_ready) !! "S-1" = Some (BoundUpdateEvents 1) /\
  _order_index (client world_ready) !! Order.id O_1 = None /\
  exists w',
    MockExecClient.submit_order (PyOrder O_1) "S-1" world_ready = (Returned tt, w') /\
    received (BoundUpdateEvents 3) (effects w') = [].
Proof.
  split; [reflexivity|]. split; [reflexivity|].
  destruct (mock_submit_order_delivers O_1 "S-1" (BoundUpdateEvents 1) world_ready)
    as (w' & Hrun & _ & _ & Hother & _); [reflexivity | reflexivity |].
  exists w'. split; [exact Hrun|].
  rewrite Hother; [reflexivity | discriminate].
Defined.

(** C2, as stated, fails: two runs of the mock client on the same calls
    (register [S_1], submit [O_1] for it) in two processes whose clock and
    UUID source return different values deliver events that differ in
    [event_id] and in both timestamps. *)
Lemma mock_runs_differ_in_stamps :
  effects (run Mock [CallRegisterStrategy (PyStrategy S_1);
                     CallSubmitOrder (PyOrder O_1) "S-1"] world_a).2
  <> effects (run Mock [CallRegisterStrategy (PyStrategy S_1);
                        CallSubmitOrder (PyOrder O_1) "S-1"] world_b).2.
Proof. vm_compute. discriminate. Qed.

(** C2, amended: two runs of the mock client on the same calls return and
    raise the same, end with the same registries, and produce the same
    effects in the same order up to [event_id], [event_timestamp] and the
    time of occurrence of each event; these three are what [uuid4] and
    [utcnow] returned, so the effects are identical in every field when the
    two sources return the same values. *)
Theorem mock_runs_agree_up_to_stamps
    (calls : list Call) (clock1 clock2 : nat -> Z) (uuids1 uuids2 : nat -> Z) :
  (run Mock calls (fresh clock1 uuids1)).1 = (run Mock calls (fresh clock2 uuids2)).1 /\
  client (run Mock calls (fresh clock1 uuids1)).2 =
    client (run Mock calls (fresh clock2 uuids2)).2 /\
  map unstamp (effects (run Mock calls (fresh clock1 uuids1)).2) =
    map unstamp (effects (run Mock calls (fresh clock2 uuids2)).2) /\
  ((forall n, clock1 n = clock2 n) -> (forall n, uuids1 n = uuids2 n) ->
   effects (run Mock calls (fresh clock1 uuids1)).2 =
     effects (run Mock calls (fresh clock2 uuids2)).2).
Proof.
  destruct (run_alike Mock calls (fresh clock1 uuids1) (fresh clock2 uuids2))
    as (Hout & Hc & He); [now split|].
  repeat split; auto.
  intros Hclock Huuid.
  destruct (run_same Mock calls (fresh clock1 uuids1) (fresh clock2 uuids2))
    as (_ & _ & Heff & _); [repeat split; auto | exact Heff].
Qed.

Lemma mock_runs_agree_up_to_stamps_witness :
  (forall n, clock_a n = Z.of_nat (n + 0)) /\
  (forall n, uuids_a n = Z.of_nat (n + 1000)) /\
  effects (run Mock [CallRegisterStrategy (PyStrategy S_1);
                     CallSubmitOrder (PyOrder O_1) "S-1"]
             (fresh clock_a uuids_a)).2 =
  effects (run Mock [CallRegisterStrategy (PyStrategy S_1);
                     CallSubmitOrder (PyOrder O_1) "S-1"]
             (fresh (fun n => Z.of_nat (n + 0)) (fun n => Z.of_nat (n + 1000)))).2.
Proof.
  assert (Hc : forall n, clock_a n = Z.of_nat (n + 0)).
  { intros n. unfold clock_a. f_equal. lia. }
  assert (Hu : forall n, uuids_a n = Z.of_nat (n + 1000)).
  { intros n. unfold uuids_a. f_equal. lia. }
  split; [exact Hc|]. split; [exact Hu|].
  exact (proj2 (proj2 (proj2
    (mock_runs_agree_up_to_stamps
       [CallRegisterStrategy (PyStrategy S_1); CallSubmitOrder (PyOrder O_1) "S-1"]
       clock_a (fun n => Z.of_nat (n + 0)) uuids_a (fun n => Z.of_nat (n + 1000)))))
    Hc Hu).
Defined.

(** C3: [submit_order] of the mock and of the live client is
    [_register_order] followed by what the adapter does; when
    [_register_order] raises, [submit_order] raises the same exception and
    the world is untouched (no event built, nothing delivered or printed,
    registries as before); when it returns, the order is in the index and
    nothing else has happened when the adapter starts. *)
Theorem submit_order_registers_first
    (cls : ClientClass) (order : PyObject) (sid : StrategyId) (w : World) :
  cls <> Abstract ->
  submit_order cls order sid w =
    (ExecutionClient._register_order order sid;; venue_action cls order) w /\
  (forall e, (ExecutionClient._register_order order sid w).1 = Raised e ->
     submit_order cls order sid w = (Raised e, w)) /\
  (forall w1, ExecutionClient._register_order order sid w = (Returned tt, w1) ->
     submit_order cls order sid w = venue_action cls order w1 /\
     effects w1 = effects w /\
     utcnow_calls w1 = utcnow_calls w /\ uuid4_calls w1 = uuid4_calls w /\
     exists o, order = PyOrder o /\ _order_index (client w1) !! Order.id o = Some sid).
Proof.
  intros Hcls.
  assert (Heq : submit_order cls order sid w =
                (ExecutionClient._register_order order sid;; venue_action cls order) w).
  { destruct cls; [congruence | reflexivity |].
    cbn [submit_order venue_action]. unfold LiveExecClient.submit_order, mbind, Py_bind.
    destruct (ExecutionClient._register_order order sid w) as [[[]|e] w1]; reflexivity. }
  split; [exact Heq|]. split.
  - intros e He. rewrite Heq. unfold mbind, Py_bind.
    now rewrite (register_order_raises order sid w e He).
  - intros w1 Hok. rewrite Heq. unfold mbind at 1. unfold Py_bind at 1. rewrite Hok.
    split; [reflexivity|].
    destruct order as [o| | | |]; try discriminate Hok.
    rewrite register_order_eq in Hok.
    destruct (_order_index (client w) !! Order.id o); [discriminate|].
    injection Hok as <-. cbn. repeat split.
    exists o. split; [reflexivity | apply lookup_insert_eq].
Qed.

Lemma submit_order_registers_first_witness :
  Mock <> Abstract /\
  (ExecutionClient._register_order (PyOther "int") "S-1" world_ready).1 =
    Raised (TypeError "The order is not a type of Order (was <class 'int'>).") /\
  submit_order Mock (PyOther "int") "S-1" world_ready =
    (Raised (TypeError "The order is not a type of Order (was <class 'int'>)."),
     world_ready) /\
  ExecutionClient._register_order (PyOrder O_1) "S-1" world_ready =
    (Returned tt, (ExecutionClient._register_order (PyOrder O_1) "S-1" world_ready).2) /\
  submit_order Mock (PyOrder O_1) "S-1" world_ready =
    venue_action Mock (PyOrder O_1)
      (ExecutionClient._register_order (PyOrder O_1) "S-1" world_ready).2.
Proof.
  assert (Hcls : Mock <> Abstract) by discriminate.
  assert (Hbad : (ExecutionClient._register_order (PyOther "int") "S-1" world_ready).1 =
                 Raised (TypeError "The order is not a type of Order (was <class 'int'>)."))
    by reflexivity.
  assert (Hok : ExecutionClient._register_order (PyOrder O_1) "S-1" world_ready =
                (Returned tt,
                 (ExecutionClient._register_order (PyOrder O_1) "S-1" world_ready).2))
    by (vm_compute; reflexivity).
  split; [exact Hcls|]. split; [exact Hbad|]. split; [|split; [exact Hok|]].
  - exact (proj1 (proj2 (submit_order_registers_first Mock (PyOther "int") "S-1"
                           world_ready Hcls)) _ Hbad).
  - exact (proj1 (proj2 (proj2 (submit_order_registers_first Mock (PyOrder O_1) "S-1"
                                  world_ready Hcls)) _ Hok)).
Defined.

(** C4: after a registration of an order, whatever its outcome and whatever
    calls follow, a registration of an order with the same id raises
    [ValueError] (the order does not have a unique id) to the caller, also
    through [submit_order] of the mock and of the live client, and leaves
    the world, and so the owner recorded for that id, as it was; when the
    first registration returned, the recorded owner is its strategy id. *)
Theorem duplicate_order_rejected
    (cls : ClientClass) (o1 o2 : Order.t) (sid1 sid2 : StrategyId)
    (between : list Call) (w : World) :
  Order.id o1 = Order.id o2 ->
  let first := ExecutionClient._register_order (PyOrder o1) sid1 w in
  let w2 := (run cls between first.2).2 in
  ExecutionClient._register_order (PyOrder o2) sid2 w2 =
    (Raised (ValueError "The order does not have a unique id."), w2) /\
  MockExecClient.submit_order (PyOrder o2) sid2 w2 =
    (Raised (ValueError "The order does not have a unique id."), w2) /\
  LiveExecClient.submit_order (PyOrder o2) sid2 w2 =
    (Raised (ValueError "The order does not have a unique id."), w2) /\
  _order_index (client w2) !! Order.id o1 = _order_index (client first.2) !! Order.id o1 /\
  (first.1 = Returned tt -> _order_index (client w2) !! Order.id o1 = Some sid1).
Proof.
  intros Hid first w2.
  assert (Hfirst : exists owner,
             _order_index (client first.2) !! Order.id o1 = Some owner /\
             (first.1 = Returned tt -> owner = sid1)).
  { subst first. rewrite register_order_eq.
    destruct (_order_index (client w) !! Order.id o1) as [owner|] eqn:E; cbn.
    - exists owner. split; [exact E | discriminate].
    - exists sid1. split; [apply lookup_insert_eq | reflexivity]. }
  destruct Hfirst as (owner & Hown & Hsid).
  assert (Hkept : _order_index (client w2) !! Order.id o1 = Some owner).
  { eapply lookup_weaken; [exact Hown | apply run_grows]. }
  assert (Hdup : ExecutionClient._register_order (PyOrder o2) sid2 w2 =
                 (Raised (ValueError "The order does not have a unique id."), w2)).
  { rewrite register_order_eq, <- Hid, Hkept. reflexivity. }
  split; [exact Hdup|]. split; [|split; [exact Hdup|split]].
  - rewrite mock_submit_eq, <- Hid, Hkept. reflexivity.
  - now rewrite Hkept, Hown.
  - intros Hok. rewrite Hkept. f_equal. auto.
Qed.

Lemma duplicate_order_rejected_witness :
  Order.id O_1 = Order.id O_1' /\
  MockExecClient.submit_order (PyOrder O_1') "S-2"
    (run Mock [CallCancelOrder (PyOrder O_1)]
       (ExecutionClient._register_order (PyOrder O_1) "S-1" world_ready).2).2 =
  (Raised (ValueError "The order does not have a unique id."),
   (run Mock [CallCancelOrder (PyOrder O_1)]
      (ExecutionClient._register_order (PyOrder O_1) "S-1" world_ready).2).2).
Proof.
  split; [reflexivity|].
  exact (proj1 (proj2 (duplicate_order_rejected Mock O_1 O_1' "S-1" "S-2"
                         [CallCancelOrder (PyOrder O_1)] world_ready eq_refl))).
Defined.

(** C5: after a registration of a strategy, whatever its outcome and
    whatever calls follow, a registration of a strategy with the same
    [str] raises [ValueError] (the strategy does not have a unique name and
    label) to the caller and leaves the world, and so the sink stored for
    that identity, as it was; when the first registration returned, the
    stored sink is the first strategy's. *)
Theorem duplicate_strategy_rejected
    (cls : ClientClass) (s1 s2 : TradeStrategy.t) (between : list Call) (w : World) :
  TradeStrategy.str s1 = TradeStrategy.str s2 ->
  let first := ExecutionClient.register_strategy (PyStrategy s1) w in
  let w2 := (run cls between first.2).2 in
  ExecutionClient.register_strategy (PyStrategy s2) w2 =
    (Raised (ValueError "The strategy does not have a unique name and label."), w2) /\
  _registered_strategies (client w2) !! TradeStrategy.str s1 =
    _registered_strategies (client first.2) !! TradeStrategy.str s1 /\
  (first.1 = Returned tt ->
   _registered_strategies (client w2) !! TradeStrategy.str s1 =
     Some (BoundUpdateEvents (TradeStrategy.obj s1))).
Proof.
  intros Hid first w2.
  assert (Hfirst : exists sink,
             _registered_strategies (client first.2) !! TradeStrategy.str s1 = Some sink /\
             (first.1 = Returned tt -> sink = BoundUpdateEvents (TradeStrategy.obj s1))).
  { subst first. rewrite register_strategy_eq.
    destruct (_registered_strategies (client w) !! TradeStrategy.str s1) as [sink|] eqn:E; cbn.
    - exists sink. split; [exact E | discriminate].
    - eexists. split; [apply lookup_insert_eq | reflexivity]. }
  destruct Hfirst as (sink & Hown & Hsink).
  assert (Hkept : _registered_strategies (client w2) !! TradeStrategy.str s1 = Some sink).
  { eapply lookup_weaken; [exact Hown | apply run_grows]. }
  split; [|split].
  - rewrite register_strategy_eq, <- Hid, Hkept. reflexivity.
  - now rewrite Hkept, Hown.
  - intros Hok. rewrite Hkept. f_equal. auto.
Qed.

Lemma duplicate_strategy_rejected_witness :
  TradeStrategy.str S_1 = TradeStrategy.str S_1' /\
  ExecutionClient.register_strategy (PyStrategy S_1')
    (run Mock [] (ExecutionClient.register_strategy (PyStrategy S_1) world_a).2).2 =
  (Raised (ValueError "The strategy does not have a unique name and label."),
   (run Mock [] (ExecutionClient.register_strategy (PyStrategy S_1) world_a).2).2) /\
  _registered_strategies
    (client (run Mock [] (ExecutionClient.register_strategy (PyStrategy S_1) world_a).2).2)
    !! "S-1" = Some (BoundUpdateEvents 1).
Proof.
  split; [reflexivity|].
  destruct (duplicate_strategy_rejected Mock S_1 S_1' [] world_a) as (Hdup & _ & Hsink);
    [reflexivity|].
  split; [exact Hdup | apply Hsink; reflexivity].
Defined.

(** C6: an [OrderEvent] whose order id is not in the order index is
    dropped by [_on_event]: the call returns normally, one warning line is
    printed, no sink is called and both registries are as before. *)
Theorem on_event_unknown_order_dropped (e : OrderEvent.t) (w : World) :
  _order_index (client w) !! OrderEvent.order_id e = None ->
  exists w',
    ExecutionClient._on_event (PyOrderEvent e) w = (Returned tt, w') /\
    effects w' = effects w ++
      [Printed ("Execution: Warning given event order id not contained in index "
                  +:+ OrderEvent.order_id e)] /\
    delivered (effects w') = delivered (effects w) /\
    client w' = client w /\
    utcnow_calls w' = utcnow_calls w /\ uuid4_calls w' = uuid4_calls w.
Proof.
  intros Hidx. rewrite on_event_eq, Hidx.
  eexists. split; [reflexivity|]. cbn.
  repeat split. unfold delivered. rewrite omap_app. cbn. apply app_nil_r.
Qed.

Lemma on_event_unknown_order_dropped_witness :
  _order_index (client world_ready) !! OrderEvent.order_id stray_event = None /\
  exists w',
    ExecutionClient._on_event (PyOrderEvent stray_event) world_ready = (Returned tt, w') /\
    delivered (effects w') = delivered (effects world_ready).
Proof.
  assert (H : _order_index (client world_ready) !! OrderEvent.order_id stray_event = None)
    by (vm_compute; reflexivity).
  split; [exact H|].
  destruct (on_event_unknown_order_dropped stray_event world_ready H)
    as (w' & Hrun & _ & Hnone & _).
  exists w'. split; [exact Hrun | exact Hnone].
Defined.

(** C7: after [submit_order] of the mock client returned for an order, and
    whatever calls follow, [modify_order] of that order with a price
    returns normally and has by then handed to the owning strategy's sink
    exactly one event, a [Modified] of that order with that price and with
    the broker order id the [Working] event of the submission carried,
    ["B"] followed by the order id; nothing else is delivered or printed and
    the registries are as before. *)
Theorem mock_modify_order_delivers
    (o : Order.t) (sid : StrategyId) (p : Decimal) (between : list Call) (w w1 : World) :
  MockExecClient.submit_order (PyOrder o) sid w = (Returned tt, w1) ->
  let w2 := (run Mock between w1).2 in
  exists sink w3,
    _registered_strategies (client w) !! sid = Some sink /\
    Delivered sink (working_in o w) ∈ effects w1 /\
    OrderEvent.kind (working_in o w) = Working ("B" +:+ Order.id o) /\
    MockExecClient.modify_order (PyOrder o) p w2 = (Returned tt, w3) /\
    effects w3 = effects w2 ++ [Delivered sink (modified_in o p w2)] /\
    OrderEvent.kind (modified_in o p w2) = Modified ("B" +:+ Order.id o) p /\
    OrderEvent.order_id (modified_in o p w2) = Order.id o /\
    client w3 = client w2.
Proof.
  intros Hsub w2. rewrite mock_submit_eq in Hsub.
  destruct (_order_index (client w) !! Order.id o) eqn:Hidx; [discriminate|].
  cbn zeta in Hsub.
  destruct (_registered_strategies (client w) !! sid) as [sink|] eqn:Hreg; [|discriminate].
  injection Hsub as <-.
  match goal with w2 := (run Mock between ?v).2 |- _ => set (w1 := v) in * end.
  assert (Hidx2 : _order_index (client w2) !! Order.id o = Some sid).
  { eapply lookup_weaken; [|apply run_grows]. apply lookup_insert_eq. }
  assert (Hreg2 : _registered_strategies (client w2) !! sid = Some sink).
  { eapply lookup_weaken; [|apply run_grows]. exact Hreg. }
  exists sink. eexists. split; [reflexivity|]. split.
  { subst w1. cbn [effects]. rewrite elem_of_app. right. set_solver. }
  split; [reflexivity|]. split.
  { rewrite mock_modify_eq. cbn zeta. rewrite on_event_eq. cbn.
    rewrite Hidx2, Hreg2. reflexivity. }
  cbn. repeat split.
Qed.

Lemma mock_modify_order_delivers_witness :
  MockExecClient.submit_order (PyOrder O_1) "S-1" world_ready =
    (Returned tt, world_submitted) /\
  exists w3,
    MockExecClient.modify_order (PyOrder O_1) (mkDecimal 105 (-1)) world_cancelled =
      (Returned tt, w3) /\
    effects w3 = effects world_cancelled ++
      [Delivered (BoundUpdateEvents 1) (modified_in O_1 (mkDecimal 105 (-1)) world_cancelled)].
Proof.
  assert (Hsub : MockExecClient.submit_order (PyOrder O_1) "S-1" world_ready
                 = (Returned tt, world_submitted)) by (vm_compute; reflexivity).
  split; [exact Hsub|].
  destruct (mock_modify_order_delivers O_1 "S-1" (mkDecimal 105 (-1))
              [CallCancelOrder (PyOrder O_1)] world_ready world_submitted Hsub)
    as (sink & w3 & Hsink & _ & _ & Hrun & Heff & _).
  assert (sink = BoundUpdateEvents 1) as -> by (vm_compute in Hsink; congruence).
  exists w3. split; [exact Hrun | exact Heff].
Defined.

(** C8: along every sequence of calls on a client of any class
    ([register_strategy], [connect], [disconnect], [submit_order],
    [cancel_order], [modify_order], [_on_event]), an order id that is in the
    order index stays there with the same strategy id: the index after the
    calls contains the index before them. *)
Theorem order_index_only_grows
    (cls : ClientClass) (calls : list Call) (w : World) (oid : OrderId) (sid : StrategyId) :
  _order_index (client w) !! oid = Some sid ->
  _order_index (client (run cls calls w).2) !! oid = Some sid /\
  _order_index (client w) ⊆ _order_index (client (run cls calls w).2).
Proof.
  intros H. destruct (run_grows cls calls w) as [Hsub _].
  split; [eapply lookup_weaken; eauto | exact Hsub].
Qed.

Lemma order_index_only_grows_witness :
  _order_index (client world_submitted) !! "O-1" = Some "S-1" /\
  _order_index (client (run Mock later_calls world_submitted).2) !! "O-1" = Some "S-1".
Proof.
  assert (H : _order_index (client world_submitted) !! "O-1" = Some "S-1")
    by (vm_compute; reflexivity).
  split; [exact H|].
  exact (proj1 (order_index_only_grows Mock later_calls world_submitted "O-1" "S-1" H)).
Defined.

(** C9: [_on_event] never raises [TypeError]: for an argument that is not
    an [Event] the exception is built and dropped; and for every argument
    that is not an [OrderEvent] the call returns normally and leaves the
    world as it was (nothing delivered, nothing printed, registries
    unchanged). *)
Theorem on_event_ignores_other_arguments (x : PyObject) (w : World) :
  (forall msg, (ExecutionClient._on_event x w).1 <> Raised (TypeError msg)) /\
  (isinstance_Event x = false -> ExecutionClient._on_event x w = (Returned tt, w)) /\
  (isinstance_OrderEvent x = false -> ExecutionClient._on_event x w = (Returned tt, w)).
Proof.
  split; [|split].
  - intros msg. destruct x as [| | e | |]; try discriminate.
    rewrite on_event_eq.
    destruct (_order_index (client w) !! OrderEvent.order_id e) as [sid|]; [|discriminate].
    destruct (_registered_strategies (client w) !! sid); discriminate.
  - intros H. apply on_event_other. destruct x; try reflexivity; discriminate H.
  - apply on_event_other.
Qed.

Lemma on_event_ignores_other_arguments_witness :
  isinstance_Event (PyOther "int") = false /\
  ExecutionClient._on_event (PyOther "int") world_ready = (Returned tt, world_ready) /\
  isinstance_OrderEvent (PyEvent 7 8) = false /\
  ExecutionClient._on_event (PyEvent 7 8) world_ready = (Returned tt, world_ready).
Proof.
  split; [reflexivity|]. split.
  - apply (on_event_ignores_other_arguments (PyOther "int") world_ready). reflexivity.
  - split; [reflexivity|].
    apply (on_event_ignores_other_arguments (PyEvent 7 8) world_ready). reflexivity.
Defined.

(** C10: [submit_order] of the mock client with a new order and a strategy
    id that is not in the strategy registry registers the order
    ([_register_order] does not look at the strategy registry and returns),
    builds the three events, and then raises [KeyError] of the strategy id
    at the first dispatch; nothing is delivered or printed, and the order
    stays in the index under that strategy id. *)
Theorem mock_submit_unknown_strategy (o : Order.t) (sid : StrategyId) (w : World) :
  _order_index (client w) !! Order.id o = None ->
  _registered_strategies (client w) !! sid = None ->
  exists w',
    MockExecClient.submit_order (PyOrder o) sid w = (Raised (KeyError sid), w') /\
    (ExecutionClient._register_order (PyOrder o) sid w).1 = Returned tt /\
    _order_index (client w') = <[Order.id o := sid]> (_order_index (client w)) /\
    _order_index (client w') !! Order.id o = Some sid /\
    _registered_strategies (client w') = _registered_strategies (client w) /\
    effects w' = effects w /\
    utcnow_calls w' = 6 + utcnow_calls w /\ uuid4_calls w' = 3 + uuid4_calls w.
Proof.
  intros Hidx Hreg. rewrite mock_submit_eq, register_order_eq, Hidx. cbn zeta. rewrite Hreg.
  eexists. split; [reflexivity|]. cbn.
  repeat split. apply lookup_insert_eq.
Qed.

Lemma mock_submit_unknown_strategy_witness :
  _order_index (client world_ready) !! Order.id O_1 = None /\
  _registered_strategies (client world_ready) !! "S-9" = None /\
  exists w',
    MockExecClient.submit_order (PyOrder O_1) "S-9" world_ready = (Raised (KeyError "S-9"), w') /\
    _order_index (client w') !! Order.id O_1 = Some "S-9".
Proof.
  split; [reflexivity|]. split; [reflexivity|].
  destruct (mock_submit_unknown_strategy O_1 "S-9" world_ready)
    as (w' & Hrun & _ & _ & Hidx & _); [reflexivity | reflexivity |].
  exists w'. split; [exact Hrun | exact Hidx].
Defined.


(** ** Beyond the claims: cancellation *)

(** X1: after [submit_order] of the mock client returned for an order, and
    whatever calls follow (earlier cancellations included), [cancel_order]
    of any order object with that id returns normally and has handed to the
    owner's sink exactly one [Cancelled] event, which carries the symbol of
    the object passed in; the registries are as before. *)
Theorem mock_cancel_order_delivers
    (o o' : Order.t) (sid : StrategyId) (between : list Call) (w w1 : World) :
  MockExecClient.submit_order (PyOrder o) sid w = (Returned tt, w1) ->
  Order.id o' = Order.id o ->
  let w2 := (run Mock between w1).2 in
  exists sink w3,
    _registered_strategies (client w) !! sid = Some sink /\
    MockExecClient.cancel_order (PyOrder o') w2 = (Returned tt, w3) /\
    effects w3 = effects w2 ++ [Delivered sink (cancelled_in o' w2)] /\
    OrderEvent.kind (cancelled_in o' w2) = Cancelled /\
    OrderEvent.order_id (cancelled_in o' w2) = Order.id o /\
    OrderEvent.symbol (cancelled_in o' w2) = Order.symbol o' /\
    client w3 = client w2.
Proof.
  intros Hsub Hid w2. rewrite mock_submit_eq in Hsub.
  destruct (_order_index (client w) !! Order.id o) eqn:Hidx; [discriminate|].
  cbn zeta in Hsub.
  destruct (_registered_strategies (client w) !! sid) as [sink|] eqn:Hreg; [|discriminate].
  injection Hsub as <-.
  assert (Hidx2 : _order_index (client w2) !! Order.id o' = Some sid).
  { rewrite Hid. eapply lookup_weaken; [|apply run_grows]. apply lookup_insert_eq. }
  assert (Hreg2 : _registered_strategies (client w2) !! sid = Some sink).
  { eapply lookup_weaken; [|apply run_grows]. exact Hreg. }
  exists sink. eexists. split; [reflexivity|]. split.
  { rewrite mock_cancel_eq. cbn zeta. rewrite on_event_eq. cbn.
    rewrite Hidx2, Hreg2. reflexivity. }
  cbn. repeat split. exact Hid.
Qed.

Lemma mock_cancel_order_delivers_witness :
  MockExecClient.submit_order (PyOrder O_1) "S-1" world_ready =
    (Returned tt, world_submitted) /\
  Order.id O_1' = Order.id O_1 /\
  exists w3,
    MockExecClient.cancel_order (PyOrder O_1') world_cancelled = (Returned tt, w3) /\
    effects w3 = effects world_cancelled ++
      [Delivered (BoundUpdateEvents 1) (cancelled_in O_1' world_cancelled)].
Proof.
  assert (Hsub : MockExecClient.submit_order (PyOrder O_1) "S-1" world_ready
                 = (Returned tt, world_submitted)) by (vm_compute; reflexivity).
  split; [exact Hsub|]. split; [reflexivity|].
  destruct (mock_cancel_order_delivers O_1 O_1' "S-1"
              [CallCancelOrder (PyOrder O_1)] world_ready world_submitted Hsub eq_refl)
    as (sink & w3 & Hsink & Hrun & Heff & _).
  assert (sink = BoundUpdateEvents 1) as -> by (vm_compute in Hsink; congruence).
  exists w3. split; [exact Hrun | exact Heff].
Defined.

(** X2: [cancel_order] and [modify_order] of the mock client for an order
    whose id is not in the order index build their event (two readings of
    the clock, one UUID), return normally, print the warning of the inbound
    handler and deliver nothing; the order is not registered by them. *)
Theorem mock_cancel_modify_unknown_order (o : Order.t) (p : Decimal) (w : World) :
  _order_index (client w) !! Order.id o = None ->
  exists w3 w4,
    MockExecClient.cancel_order (PyOrder o) w = (Returned tt, w3) /\
    MockExecClient.modify_order (PyOrder o) p w = (Returned tt, w4) /\
    effects w3 = effects w ++
      [Printed ("Execution: Warning given event order id not contained in index "
                  +:+ Order.id o)] /\
    effects w4 = effects w ++
      [Printed ("Execution: Warning given event order id not contained in index "
                  +:+ Order.id o)] /\
    client w3 = client w /\ client w4 = client w /\
    utcnow_calls w3 = 2 + utcnow_calls w /\ uuid4_calls w3 = 1 + uuid4_calls w /\
    utcnow_calls w4 = 2 + utcnow_calls w /\ uuid4_calls w4 = 1 + uuid4_calls w.
Proof.
  intros Hidx. rewrite mock_cancel_eq, mock_modify_eq. cbn zeta.
  rewrite !on_event_eq. cbn. rewrite Hidx.
  do 2 eexists. split; [reflexivity|]. split; [reflexivity|].
  cbn. repeat split.
Qed.

Lemma mock_cancel_modify_unknown_order_witness :
  _order_index (client world_ready) !! Order.id O_1 = None /\
  exists w3,
    MockExecClient.cancel_order (PyOrder O_1) world_ready = (Returned tt, w3) /\
    client w3 = client world_ready.
Proof.
  assert (H : _order_index (client world_ready) !! Order.id O_1 = None)
    by (vm_compute; reflexivity).
  split; [exact H|].
  destruct (mock_cancel_modify_unknown_order O_1 (mkDecimal 1 0) world_ready H)
    as (w3 & w4 & Hc & _ & _ & _ & Hcl & _).
  exists w3. split; [exact Hc | exact Hcl].
Defined.


(** ** Beyond the claims: what touches the registries *)

Lemma perform_keeps_client (cls : ClientClass) (c : Call) (w : World) :
  registers c = false -> client (perform cls c w).2 = client w.
Proof.
  destruct c as [x| | |x sid|x|x p|x]; cbn [registers perform]; try discriminate; intros _.
  - destruct cls; reflexivity.
  - destruct cls; reflexivity.
  - destruct cls; cbn [cancel_order]; [reflexivity | | reflexivity].
    destruct x as [o| | | |]; try reflexivity.
    rewrite mock_cancel_eq. cbn zeta. now rewrite on_event_client.
  - destruct cls; cbn [modify_order]; [reflexivity | | reflexivity].
    destruct x as [o| | | |]; try reflexivity.
    rewrite mock_modify_eq. cbn zeta. now rewrite on_event_client.
  - apply on_event_client.
Qed.

(** X3: the only methods that write to a registry are [register_strategy]
    and [submit_order]: a run of any other calls ([connect], [disconnect],
    [cancel_order], [modify_order], [_on_event]), on a client of any class
    and with any arguments, ends with both registries exactly as they
    were, whatever the calls returned or raised. *)
Theorem other_calls_keep_registries
    (cls : ClientClass) (calls : list Call) (w : World) :
  Forall (fun c => registers c = false) calls ->
  client (run cls calls w).2 = client w.
Proof.
  intros H. revert w. induction H as [|c rest Hc _ IH]; intros w; [reflexivity|].
  cbn [run]. pose proof (perform_keeps_client cls c w Hc) as Hstep.
  destruct (perform cls c w) as [r w1]. cbn in Hstep.
  specialize (IH w1). destruct (run cls rest w1) as [rs w2]. cbn in *.
  congruence.
Qed.

Lemma other_calls_keep_registries_witness :
  Forall (fun c => registers c = false) quiet_calls /\
  client (run Mock quiet_calls world_submitted).2 = client world_submitted.
Proof.
  assert (H : Forall (fun c => registers c = false) quiet_calls)
    by (repeat constructor).
  split; [exact H|].
  exact (other_calls_keep_registries Mock quiet_calls world_submitted H).
Defined.

(** X4: along every sequence of calls on a client of any class, a strategy
    identity that is in the strategy registry stays there with the same
    sink: the registry after the calls contains the registry before
    them. *)
Theorem strategy_registry_only_grows
    (cls : ClientClass) (calls : list Call) (w : World) (name : StrategyId) (sink : Sink) :
  _registered_strategies (client w) !! name = Some sink ->
  _registered_strategies (client (run cls calls w).2) !! name = Some sink /\
  _registered_strategies (client w) ⊆ _registered_strategies (client (run cls calls w).2).
Proof.
  intros H. destruct (run_grows cls calls w) as [_ Hsub].
  split; [eapply lookup_weaken; eauto | exact Hsub].
Qed.

Lemma strategy_registry_only_grows_witness :
  _registered_strategies (client world_ready) !! "S-1" = Some (BoundUpdateEvents 1) /\
  _registered_strategies (client (run Live later_calls world_ready).2) !! "S-1"
  = Some (BoundUpdateEvents 1).
Proof.
  assert (H : _registered_strategies (client world_ready) !! "S-1"
              = Some (BoundUpdateEvents 1)) by (vm_compute; reflexivity).
  split; [exact H|].
  exact (proj1 (strategy_registry_only_grows Live later_calls world_ready "S-1" _ H)).
Defined.

(** X5: on a client of the abstract class no call ever writes to the order
    index: [submit_order] raises [NotImplementedError] before any
    registration, so after any run the index is the one before it. *)
Theorem abstract_client_never_registers_orders (calls : list Call) (w : World) :
  _order_index (client (run Abstract calls w).2) = _order_index (client w).
Proof.
  revert w. induction calls as [|c rest IH]; intros w; [reflexivity|].
  cbn [run].
  assert (Hstep : _order_index (client (perform Abstract c w).2) = _order_index (client w)).
  { destruct (registers c) eqn:Hc.
    - destruct c as [x| | |x sid|x|x p|x]; try discriminate Hc; [|reflexivity].
      cbn [perform]. destruct x as [| s | | |]; try reflexivity.
      rewrite register_strategy_eq.
      destruct (_registered_strategies (client w) !! TradeStrategy.str s); reflexivity.
    - now rewrite perform_keeps_client. }
  destruct (perform Abstract c w) as [r w1]. cbn in Hstep.
  specialize (IH w1). destruct (run Abstract rest w1) as [rs w2]. cbn in *.
  congruence.
Qed.

(** ** Beyond the claims: where events go *)

Lemma on_event_new_effects (x : PyObject) (w : World) :
  exists new,
    effects (ExecutionClient._on_event x w).2 = effects w ++ new /\
    forall sink e, Delivered sink e ∈ new ->
      x = PyOrderEvent e /\
      exists sid,
        _order_index (client w) !! OrderEvent.order_id e = Some sid /\
        _registered_strategies (client w) !! sid = Some sink.
Proof.
  destruct x as [| | e | |];
    try (exists []; split; [cbn; now rewrite app_nil_r | intros ? ? H; inversion H]).
  rewrite on_event_eq.
  destruct (_order_index (client w) !! OrderEvent.order_id e) as [sid|] eqn:Hidx.
  - destruct (_registered_strategies (client w) !! sid) as [sink|] eqn:Hreg.
    + exists [Delivered sink e]. split; [reflexivity|].
      intros sink' e' H. apply list_elem_of_singleton in H. injection H as -> ->.
      split; [reflexivity|]. exists sid. now rewrite Hidx.
    + exists []. split; [cbn; now rewrite app_nil_r | intros ? ? H; inversion H].
  - eexists [_]. split; [reflexivity|].
    intros sink' e' H. apply list_elem_of_singleton in H. discriminate H.
Qed.

Lemma perform_new_effects (cls : ClientClass) (c : Call) (w : World) :
  exists new,
    effects (perform cls c w).2 = effects w ++ new /\
    forall sink e, Delivered sink e ∈ new ->
      exists sid,
        _order_index (client (perform cls c w).2) !! OrderEvent.order_id e = Some sid /\
        _registered_strategies (client (perform cls c w).2) !! sid = Some sink.
Proof.
  assert (Hnil : forall w' : World, effects w' = effects w ->
            exists new, effects w' = effects w ++ new /\
              forall sink e, Delivered sink e ∈ new ->
                exists sid,
                  _order_index (client w') !! OrderEvent.order_id e = Some sid /\
                  _registered_strategies (client w') !! sid = Some sink).
  { intros w' ->. exists []. split; [now rewrite app_nil_r | intros ? ? H; inversion H]. }
  assert (Hone : forall (w' : World) eff, effects w' = effects w ++ [eff] ->
            (forall sink e, eff <> Delivered sink e) ->
            exists new, effects w' = effects w ++ new /\
              forall sink e, Delivered sink e ∈ new ->
                exists sid,
                  _order_index (client w') !! OrderEvent.order_id e = Some sid /\
                  _registered_strategies (client w') !! sid = Some sink).
  { intros w' eff -> Hne. exists [eff]. split; [reflexivity|].
    intros sink e H. apply list_elem_of_singleton in H. symmetry in H.
    now apply Hne in H. }
  assert (Hev : forall x (w1 : World), client w1 = client w -> effects w1 = effects w ->
            exists new, effects (ExecutionClient._on_event x w1).2 = effects w ++ new /\
              forall sink e, Delivered sink e ∈ new ->
                exists sid,
                  _order_index (client (ExecutionClient._on_event x w1).2)
                    !! OrderEvent.order_id e = Some sid /\
                  _registered_strategies (client (ExecutionClient._on_event x w1).2)
                    !! sid = Some sink).
  { intros x w1 Hc He. destruct (on_event_new_effects x w1) as (new & Hnew & Hroute).
    exists new. rewrite Hnew, He. split; [reflexivity|].
    intros sink e H. destruct (Hroute sink e H) as (_ & sid & Hi & Hr).
    exists sid. now rewrite on_event_client. }
  destruct c as [x| | |x sid|x|x p|x]; cbn [perform].
  - destruct x as [| s | | |]; try (apply Hnil; reflexivity).
    rewrite register_strategy_eq.
    destruct (_registered_strategies (client w) !! TradeStrategy.str s);
      [apply Hnil; reflexivity|].
    eapply Hone; [reflexivity | discriminate].
  - destruct cls; [apply Hnil; reflexivity | |]; (eapply Hone; [reflexivity | discriminate]).
  - destruct cls; [apply Hnil; reflexivity | |]; (eapply Hone; [reflexivity | discriminate]).
  - destruct cls; cbn [submit_order]; [apply Hnil; reflexivity | |].
    + destruct x as [o| | | |]; try (apply Hnil; reflexivity).
      rewrite mock_submit_eq.
      destruct (_order_index (client w) !! Order.id o) eqn:Hidx; [apply Hnil; reflexivity|].
      cbn zeta.
      destruct (_registered_strategies (client w) !! sid) as [sink|] eqn:Hreg;
        [|apply Hnil; reflexivity].
      eexists. split; [reflexivity|]. cbn [snd client _order_index _registered_strategies].
      intros sink' e H. exists sid.
      assert (sink' = sink /\ OrderEvent.order_id e = Order.id o) as [-> ->].
      { rewrite !elem_of_cons in H.
        destruct H as [H|[H|[H|H]]]; [| | |inversion H]; injection H as -> ->; now split. }
      split; [apply lookup_insert_eq | exact Hreg].
    + destruct x as [o| | | |]; try (apply Hnil; reflexivity).
      unfold LiveExecClient.submit_order. rewrite register_order_eq.
      destruct (_order_index (client w) !! Order.id o); apply Hnil; reflexivity.
  - destruct cls; cbn [cancel_order]; [apply Hnil; reflexivity | | apply Hnil; reflexivity].
    destruct x as [o| | | |]; try (apply Hnil; reflexivity).
    rewrite mock_cancel_eq. cbn zeta. apply Hev; reflexivity.
  - destruct cls; cbn [modify_order]; [apply Hnil; reflexivity | | apply Hnil; reflexivity].
    destruct x as [o| | | |]; try (apply Hnil; reflexivity).
    rewrite mock_modify_eq. cbn zeta. apply Hev; reflexivity.
  - apply Hev; reflexivity.
Qed.

Lemma perform_routed (cls : ClientClass) (c : Call) (w : World) :
  routed w -> routed (perform cls c w).2.
Proof.
  intros Hw sink e H.
  destruct (perform_new_effects cls c w) as (new & Hnew & Hroute).
  destruct (perform_grows cls c w) as [Hi Hr].
  rewrite Hnew, elem_of_app in H. destruct H as [H|H]; [|now apply Hroute].
  destruct (Hw sink e H) as (sid & Hidx & Hreg).
  exists sid. split; eapply lookup_weaken; eauto.
Qed.

Lemma run_routed (cls : ClientClass) (calls : list Call) :
  forall w, routed w -> routed (run cls calls w).2.
Proof.
  induction calls as [|c rest IH]; intros w Hw; [exact Hw|].
  cbn [run]. pose proof (perform_routed cls c w Hw) as H1.
  destruct (perform cls c w) as [r w1]. cbn in H1.
  specialize (IH w1 H1). now destruct (run cls rest w1) as [rs w2].
Qed.

(** X6: no event leaks to another strategy.  After any sequence of calls on
    a newly constructed client of any class, with any arguments and
    including events pushed into the inbound handler, every event that any
    sink has received is of an order id that the order index gives to a
    strategy id whose registered sink is that very sink. *)
Theorem deliveries_reach_only_the_owner
    (cls : ClientClass) (calls : list Call) (clock : nat -> Z) (uuids : nat -> Z)
    (sink : Sink) (e : OrderEvent.t) :
  Delivered sink e ∈ effects (run cls calls (fresh clock uuids)).2 ->
  exists sid,
    _order_index (client (run cls calls (fresh clock uuids)).2)
      !! OrderEvent.order_id e = Some sid /\
    _registered_strategies (client (run cls calls (fresh clock uuids)).2)
      !! sid = Some sink.
Proof.
  apply (run_routed cls calls (fresh clock uuids)).
  intros ? ? H. inversion H.
Qed.

Lemma deliveries_reach_only_the_owner_witness :
  Delivered (BoundUpdateEvents 1) session_first_event
    ∈ effects (run Mock session (fresh clock_a uuids_a)).2 /\
  exists sid,
    _order_index (client (run Mock session (fresh clock_a uuids_a)).2)
      !! OrderEvent.order_id session_first_event = Some sid /\
    _registered_strategies (client (run Mock session (fresh clock_a uuids_a)).2)
      !! sid = Some (BoundUpdateEvents 1).
Proof.
  assert (H : Delivered (BoundUpdateEvents 1) session_first_event
                ∈ effects (run Mock session (fresh clock_a uuids_a)).2).
  { vm_compute. do 2 apply list_elem_of_further. apply list_elem_of_here. }
  split; [exact H|].
  exact (deliveries_reach_only_the_owner Mock session clock_a uuids_a _ _ H).
Defined.

(** ** Beyond the claims: where registry entries come from *)

Lemma perform_index_origin (cls : ClientClass) (c : Call) (w : World)
    (oid : OrderId) (sid : StrategyId) :
  _order_index (client (perform cls c w).2) !! oid = Some sid ->
  _order_index (client w) !! oid = Some sid \/
  (cls <> Abstract /\ exists o, c = CallSubmitOrder (PyOrder o) sid /\ Order.id o = oid).
Proof.
  destruct (registers c) eqn:Hc; [|rewrite perform_keeps_client; auto].
  destruct c as [x| | |x sid'|x|x p|x]; try discriminate Hc; cbn [perform].
  - destruct x as [| s | | |]; try solve [cbn; auto].
    rewrite register_strategy_eq.
    destruct (_registered_strategies (client w) !! TradeStrategy.str s); cbn; auto.
  - destruct cls; cbn [submit_order]; [cbn; auto | |];
      (destruct x as [o| | | |]; try solve [cbn; auto]).
    + rewrite mock_submit_eq.
      destruct (_order_index (client w) !! Order.id o); [cbn; auto|]. cbn zeta.
      destruct (_registered_strategies (client w) !! sid'); cbn;
        (intros [[<- <-]|[_ H]]%lookup_insert_Some; [right | now left];
         split; [discriminate | eauto]).
    + unfold LiveExecClient.submit_order. rewrite register_order_eq.
      destruct (_order_index (client w) !! Order.id o); [cbn; auto|]. cbn.
      intros [[<- <-]|[_ H]]%lookup_insert_Some; [right | now left].
      split; [discriminate | eauto].
Qed.

Lemma perform_registry_origin (cls : ClientClass) (c : Call) (w : World)
    (name : StrategyId) (sink : Sink) :
  _registered_strategies (client (perform cls c w).2) !! name = Some sink ->
  _registered_strategies (client w) !! name = Some sink \/
  exists s, c = CallRegisterStrategy (PyStrategy s) /\
            TradeStrategy.str s = name /\ sink = BoundUpdateEvents (TradeStrategy.obj s).
Proof.
  destruct (registers c) eqn:Hc; [|rewrite perform_keeps_client; auto].
  destruct c as [x| | |x sid'|x|x p|x]; try discriminate Hc; cbn [perform].
  - destruct x as [| s | | |]; try solve [cbn; auto].
    rewrite register_strategy_eq.
    destruct (_registered_strategies (client w) !! TradeStrategy.str s); [cbn; auto|]. cbn.
    intros [[<- <-]|[_ H]]%lookup_insert_Some; [right; eauto | now left].
  - destruct cls; cbn [submit_order]; [cbn; auto | |];
      (destruct x as [o| | | |]; try solve [cbn; auto]).
    + rewrite mock_submit_eq.
      destruct (_order_index (client w) !! Order.id o); [cbn; auto|]. cbn zeta.
      destruct (_registered_strategies (client w) !! sid'); cbn; auto.
    + unfold LiveExecClient.submit_order. rewrite register_order_eq.
      destruct (_order_index (client w) !! Order.id o); cbn; auto.
Qed.

Lemma run_index_origin (cls : ClientClass) (calls : list Call)
    (oid : OrderId) (sid : StrategyId) :
  forall w,
    _order_index (client (run cls calls w).2) !! oid = Some sid ->
    _order_index (client w) !! oid = Some sid \/
    (cls <> Abstract /\
     exists o, CallSubmitOrder (PyOrder o) sid ∈ calls /\ Order.id o = oid).
Proof.
  induction calls as [|c rest IH]; intros w H; [now left|].
  cbn [run] in H. pose proof (perform_index_origin cls c w oid sid) as Hstep.
  destruct (perform cls c w) as [r w1]. cbn in Hstep.
  specialize (IH w1). destruct (run cls rest w1) as [rs w2]. cbn in *.
  destruct (IH H) as [Hin|(Hcls & o & Hc & Hid)].
  - destruct (Hstep Hin) as [Hold|(Hcls & o & -> & Hid)]; [now left|].
    right. split; [exact Hcls|]. exists o. split; [left | exact Hid].
  - right. split; [exact Hcls|]. exists o. split; [now right | exact Hid].
Qed.

Lemma run_registry_origin (cls : ClientClass) (calls : list Call)
    (name : StrategyId) (sink : Sink) :
  forall w,
    _registered_strategies (client (run cls calls w).2) !! name = Some sink ->
    _registered_strategies (client w) !! name = Some sink \/
    exists s, CallRegisterStrategy (PyStrategy s) ∈ calls /\
              TradeStrategy.str s = name /\ sink = BoundUpdateEvents (TradeStrategy.obj s).
Proof.
  induction calls as [|c rest IH]; intros w H; [now left|].
  cbn [run] in H. pose proof (perform_registry_origin cls c w name sink) as Hstep.
  destruct (perform cls c w) as [r w1]. cbn in Hstep.
  specialize (IH w1). destruct (run cls rest w1) as [rs w2]. cbn in *.
  destruct (IH H) as [Hin|(s & Hc & Hid)].
  - destruct (Hstep Hin) as [Hold|(s & -> & Hid)]; [now left|].
    right. exists s. split; [left | exact Hid].
  - right. exists s. split; [now right | exact Hid].
Qed.

(** X7: the order index holds nothing but submissions.  After any sequence
    of calls on a newly constructed client, an order id is in the index
    under a strategy id only if the client is a mock or live client and
    [submit_order] was called with an [Order] of that id and that strategy
    id; no other method, and no inbound event, adds an entry. *)
Theorem index_entries_were_submitted
    (cls : ClientClass) (calls : list Call) (clock : nat -> Z) (uuids : nat -> Z)
    (oid : OrderId) (sid : StrategyId) :
  _order_index (client (run cls calls (fresh clock uuids)).2) !! oid = Some sid ->
  cls <> Abstract /\
  exists o, CallSubmitOrder (PyOrder o) sid ∈ calls /\ Order.id o = oid.
Proof.
  intros H. destruct (run_index_origin cls calls oid sid _ H) as [Hin|Hsub]; [|exact Hsub].
  cbn in Hin. now rewrite lookup_empty in Hin.
Qed.

Lemma index_entries_were_submitted_witness :
  _order_index (client (run Mock session (fresh clock_a uuids_a)).2) !! "O-1" = Some "S-1" /\
  exists o, CallSubmitOrder (PyOrder o) "S-1" ∈ session /\ Order.id o = "O-1".
Proof.
  assert (H : _order_index (client (run Mock session (fresh clock_a uuids_a)).2) !! "O-1"
              = Some "S-1") by (vm_compute; reflexivity).
  split; [exact H|].
  exact (proj2 (index_entries_were_submitted Mock session clock_a uuids_a "O-1" "S-1" H)).
Defined.

(** X8: the strategy registry holds nothing but registrations.  After any
    sequence of calls on a newly constructed client, an identity is in the
    registry with a sink only if [register_strategy] was called with a
    strategy whose [str] is that identity and whose [_update_events] is
    that sink. *)
Theorem registry_entries_were_registered
    (cls : ClientClass) (calls : list Call) (clock : nat -> Z) (uuids : nat -> Z)
    (name : StrategyId) (sink : Sink) :
  _registered_strategies (client (run cls calls (fresh clock uuids)).2) !! name
    = Some sink ->
  exists s, CallRegisterStrategy (PyStrategy s) ∈ calls /\
            TradeStrategy.str s = name /\ sink = BoundUpdateEvents (TradeStrategy.obj s).
Proof.
  intros H. destruct (run_registry_origin cls calls name sink _ H) as [Hin|Hreg];
    [|exact Hreg].
  cbn in Hin. now rewrite lookup_empty in Hin.
Qed.

Lemma registry_entries_were_registered_witness :
  _registered_strategies (client (run Live session (fresh clock_a uuids_a)).2) !! "S-2"
    = Some (BoundUpdateEvents 3) /\
  exists s, CallRegisterStrategy (PyStrategy s) ∈ session /\
            TradeStrategy.str s = "S-2" /\
            BoundUpdateEvents 3 = BoundUpdateEvents (TradeStrategy.obj s).
Proof.
  assert (H : _registered_strategies (client (run Live session (fresh clock_a uuids_a)).2)
                !! "S-2" = Some (BoundUpdateEvents 3)) by (vm_compute; reflexivity).
  split; [exact H|].
  exact (registry_entries_were_registered Live session clock_a uuids_a "S-2" _ H).
Defined.

(** ** Beyond the claims: calls that raise *)



(** ** Beyond the claims: the live client *)

Lemma perform_quiet (cls : ClientClass) (c : Call) (w : World) :
  cls <> Mock -> is_on_event c = false ->
  delivered (effects (perform cls c w).2) = delivered (effects w).
Proof.
  intros Hcls Hc.
  assert (Hone : forall eff, (forall s ev, eff <> Delivered s ev) ->
            delivered (effects w ++ [eff]) = delivered (effects w)).
  { intros eff Hne. unfold delivered. rewrite omap_app. cbn.
    destruct eff; [apply app_nil_r | now destruct (Hne sink event) | apply app_nil_r]. }
  destruct c as [x| | |x sid|x|x p|x]; try discriminate Hc; cbn [perform].
  - destruct x as [| s | | |]; try reflexivity.
    rewrite register_strategy_eq.
    destruct (_registered_strategies (client w) !! TradeStrategy.str s); [reflexivity|].
    cbn. now apply Hone.
  - destruct cls; [reflexivity | congruence | cbn; now apply Hone].
  - destruct cls; [reflexivity | congruence | cbn; now apply Hone].
  - destruct cls; [reflexivity | congruence |]. cbn [submit_order].
    destruct x as [o| | | |]; try reflexivity.
    unfold LiveExecClient.submit_order. rewrite register_order_eq.
    destruct (_order_index (client w) !! Order.id o); reflexivity.
  - destruct cls; [reflexivity | congruence | reflexivity].
  - destruct cls; [reflexivity | congruence | reflexivity].
Qed.

(** X10: on a live client (and on the abstract class) no outbound call
    reaches a sink: after any run of calls other than the inbound handler,
    the events delivered are those delivered before.  [submit_order],
    [cancel_order] and [modify_order] of the live client produce no event
    of their own. *)
Theorem live_client_delivers_only_inbound_events
    (cls : ClientClass) (calls : list Call) (w : World) :
  cls <> Mock ->
  Forall (fun c => is_on_event c = false) calls ->
  delivered (effects (run cls calls w).2) = delivered (effects w).
Proof.
  intros Hcls H. revert w. induction H as [|c rest Hc _ IH]; intros w; [reflexivity|].
  cbn [run]. pose proof (perform_quiet cls c w Hcls Hc) as Hstep.
  destruct (perform cls c w) as [r w1]. cbn in Hstep.
  specialize (IH w1). destruct (run cls rest w1) as [rs w2]. cbn in *.
  congruence.
Qed.

Lemma live_client_delivers_only_inbound_events_witness :
  Live <> Mock /\
  Forall (fun c => is_on_event c = false) outbound_calls /\
  delivered (effects (run Live outbound_calls world_ready).2) =
    delivered (effects world_ready).
Proof.
  assert (Hcls : Live <> Mock) by discriminate.
  assert (H : Forall (fun c => is_on_event c = false) outbound_calls)
    by (repeat constructor).
  split; [exact Hcls|]. split; [exact H|].
  exact (live_client_delivers_only_inbound_events Live outbound_calls world_ready Hcls H).
Defined.

(** X11: [submit_order] of the live client does not look at the strategy
    registry: for a new order and a strategy id that is not registered it
    returns normally, registers the order and produces no effect; an event
    of that order that then enters the inbound handler is not dropped with
    a warning but raises [KeyError] of the strategy id, and the world stays
    as it is. *)
Theorem live_submit_unknown_strategy
    (o : Order.t) (sid : StrategyId) (e : OrderEvent.t) (w : World) :
  _order_index (client w) !! Order.id o = None ->
  _registered_strategies (client w) !! sid = None ->
  OrderEvent.order_id e = Order.id o ->
  exists w1,
    LiveExecClient.submit_order (PyOrder o) sid w = (Returned tt, w1) /\
    _order_index (client w1) = <[Order.id o := sid]> (_order_index (client w)) /\
    _registered_strategies (client w1) = _registered_strategies (client w) /\
    effects w1 = effects w /\
    ExecutionClient._on_event (PyOrderEvent e) w1 = (Raised (KeyError sid), w1).
Proof.
  intros Hidx Hreg He. unfold LiveExecClient.submit_order.
  rewrite register_order_eq, Hidx.
  eexists. do 4 (split; [reflexivity|]).
  rewrite on_event_eq. cbn. rewrite He, lookup_insert_eq, Hreg. reflexivity.
Qed.

Lemma live_submit_unknown_strategy_witness :
  _order_index (client world_ready) !! Order.id O_1 = None /\
  _registered_strategies (client world_ready) !! "S-9" = None /\
  OrderEvent.order_id session_first_event = Order.id O_1 /\
  exists w1,
    LiveExecClient.submit_order (PyOrder O_1) "S-9" world_ready = (Returned tt, w1) /\
    ExecutionClient._on_event (PyOrderEvent session_first_event) w1 =
      (Raised (KeyError "S-9"), w1).
Proof.
  assert (H1 : _order_index (client world_ready) !! Order.id O_1 = None)
    by (vm_compute; reflexivity).
  assert (H2 : _registered_strategies (client world_ready) !! "S-9" = None)
    by (vm_compute; reflexivity).
  split; [exact H1|]. split; [exact H2|]. split; [reflexivity|].
  destruct (live_submit_unknown_strategy O_1 "S-9" session_first_event world_ready
              H1 H2 eq_refl) as (w1 & Hsub & _ & _ & _ & Hev).
  exists w1. split; [exact Hsub | exact Hev].
Defined.

(** ** Beyond the claims: the events the mock client builds *)

(** X12: registration and submission compose.  On the mock client, when
    the strategy's identity and the order's id are both new, registering
    the strategy and then submitting the order under [str(strategy)] both
    return normally; the strategy object is told of the client and then
    its own [_update_events] receives [Submitted], [Accepted], [Working]
    of the order, and nothing else happens. *)
Theorem register_then_submit (s : TradeStrategy.t) (o : Order.t) (w : World) :
  _registered_strategies (client w) !! TradeStrategy.str s = None ->
  _order_index (client w) !! Order.id o = None ->
  exists w',
    run Mock [CallRegisterStrategy (PyStrategy s);
              CallSubmitOrder (PyOrder o) (TradeStrategy.str s)] w
      = ([Returned tt; Returned tt], w') /\
    effects w' = effects w ++
      [ClientRegistered (TradeStrategy.obj s);
       Delivered (BoundUpdateEvents (TradeStrategy.obj s)) (submitted_in o w);
       Delivered (BoundUpdateEvents (TradeStrategy.obj s)) (accepted_in o w);
       Delivered (BoundUpdateEvents (TradeStrategy.obj s)) (working_in o w)] /\
    _registered_strategies (client w') =
      <[TradeStrategy.str s := BoundUpdateEvents (TradeStrategy.obj s)]>
        (_registered_strategies (client w)) /\
    _order_index (client w') =
      <[Order.id o := TradeStrategy.str s]> (_order_index (client w)).
Proof.
  intros Hreg Hidx. cbn [run perform submit_order].
  rewrite register_strategy_eq, Hreg, mock_submit_eq. cbn.
  rewrite Hidx, lookup_insert_eq.
  eexists. split; [reflexivity|]. cbn.
  split; [now rewrite <- app_assoc | split; reflexivity].
Qed.

Lemma register_then_submit_witness :
  _registered_strategies (client world_a) !! TradeStrategy.str S_1 = None /\
  _order_index (client world_a) !! Order.id O_1 = None /\
  exists w',
    run Mock [CallRegisterStrategy (PyStrategy S_1);
              CallSubmitOrder (PyOrder O_1) (TradeStrategy.str S_1)] world_a
      = ([Returned tt; Returned tt], w').
Proof.
  assert (H1 : _registered_strategies (client world_a) !! TradeStrategy.str S_1 = None)
    by (vm_compute; reflexivity).
  assert (H2 : _order_index (client world_a) !! Order.id O_1 = None)
    by (vm_compute; reflexivity).
  split; [exact H1|]. split; [exact H2|].
  destruct (register_then_submit S_1 O_1 world_a H1 H2) as (w' & Hrun & _).
  exists w'. exact Hrun.
Defined.

(** X13: the mock client reads the clock in the order of its arguments:
    when [utcnow] never goes back, the six times stamped on the three
    events of a submission are in non-decreasing order, the time of
    occurrence of each event before its event timestamp and each event
    before the next. *)
Theorem mock_submit_timestamps_ordered
    (o : Order.t) (sid : StrategyId) (sink : Sink) (w : World) :
  _registered_strategies (client w) !! sid = Some sink ->
  _order_index (client w) !! Order.id o = None ->
  (forall n m, n <= m -> (utcnow_src w n <= utcnow_src w m)%Z) ->
  exists e1 e2 e3 w',
    MockExecClient.submit_order (PyOrder o) sid w = (Returned tt, w') /\
    effects w' = effects w ++ [Delivered sink e1; Delivered sink e2; Delivered sink e3] /\
    (OrderEvent.occurred_timestamp e1 <= OrderEvent.event_timestamp e1)%Z /\
    (OrderEvent.event_timestamp e1 <= OrderEvent.occurred_timestamp e2)%Z /\
    (OrderEvent.occurred_timestamp e2 <= OrderEvent.event_timestamp e2)%Z /\
    (OrderEvent.event_timestamp e2 <= OrderEvent.occurred_timestamp e3)%Z /\
    (OrderEvent.occurred_timestamp e3 <= OrderEvent.event_timestamp e3)%Z.
Proof.
  intros Hreg Hidx Hmono. rewrite mock_submit_eq, Hidx. cbn zeta. rewrite Hreg.
  do 4 eexists. split; [reflexivity|]. split; [reflexivity|].
  cbn. repeat split; apply Hmono; lia.
Qed.

Lemma mock_submit_timestamps_ordered_witness :
  _registered_strategies (client world_ready) !! "S-1" = Some (BoundUpdateEvents 1) /\
  _order_index (client world_ready) !! Order.id O_1 = None /\
  (forall n m, n <= m -> (utcnow_src world_ready n <= utcnow_src world_ready m)%Z) /\
  exists w', MockExecClient.submit_order (PyOrder O_1) "S-1" world_ready = (Returned tt, w').
Proof.
  assert (H1 : _registered_strategies (client world_ready) !! "S-1"
               = Some (BoundUpdateEvents 1)) by (vm_compute; reflexivity).
  assert (H2 : _order_index (client world_ready) !! Order.id O_1 = None)
    by (vm_compute; reflexivity).
  assert (H3 : forall n m, n <= m ->
                 (utcnow_src world_ready n <= utcnow_src world_ready m)%Z).
  { intros n m Hnm. change (Z.of_nat n <= Z.of_nat m)%Z. lia. }
  split; [exact H1|]. split; [exact H2|]. split; [exact H3|].
  destruct (mock_submit_timestamps_ordered O_1 "S-1" _ world_ready H1 H2 H3)
    as (e1 & e2 & e3 & w' & Hrun & _).
  exists w'. exact Hrun.
Defined.

Lemma delivered_app (es es' : list Effect) :
  delivered (es ++ es') = delivered es ++ delivered es'.
Proof. apply omap_app. Qed.

Lemma mock_step_events (c : Call) (w : World) :
  is_on_event c = false ->
  exists evs ks,
    delivered (effects (perform Mock c w).2) = delivered (effects w) ++ evs /\
    uuid4_src (perform Mock c w).2 = uuid4_src w /\
    uuid4_calls w <= uuid4_calls (perform Mock c w).2 /\
    Forall (fun d => broker_id_ok d.2) evs /\
    map (fun d => OrderEvent.event_id d.2) evs = map (uuid4_src w) ks /\
    NoDup ks /\
    Forall (fun k => uuid4_calls w <= k < uuid4_calls (perform Mock c w).2) ks.
Proof.
  intros Hc.
  assert (Hnone : forall w' : World,
            delivered (effects w') = delivered (effects w) ->
            uuid4_src w' = uuid4_src w -> uuid4_calls w <= uuid4_calls w' ->
            exists evs ks,
              delivered (effects w') = delivered (effects w) ++ evs /\
              uuid4_src w' = uuid4_src w /\ uuid4_calls w <= uuid4_calls w' /\
              Forall (fun d => broker_id_ok d.2) evs /\
              map (fun d => OrderEvent.event_id d.2) evs = map (uuid4_src w) ks /\
              NoDup ks /\
              Forall (fun k => uuid4_calls w <= k < uuid4_calls w') ks).
  { intros w' Hd Hs Hn. exists [], []. rewrite app_nil_r.
    repeat split; auto; constructor. }
  assert (Hone : forall (o : Order.t) (k : OrderEventKind) (t n : Z) (w1 : World),
            broker_id_ok (OrderEvent.mk (Order.symbol o) (Order.id o) k t
                            (uuid4_src w (uuid4_calls w)) n) ->
            client w1 = client w -> effects w1 = effects w ->
            uuid4_src w1 = uuid4_src w -> uuid4_calls w1 = 1 + uuid4_calls w ->
            let ev := OrderEvent.mk (Order.symbol o) (Order.id o) k t
                        (uuid4_src w (uuid4_calls w)) n in
            let w' := (ExecutionClient._on_event (PyOrderEvent ev) w1).2 in
            exists evs ks,
              delivered (effects w') = delivered (effects w) ++ evs /\
              uuid4_src w' = uuid4_src w /\ uuid4_calls w <= uuid4_calls w' /\
              Forall (fun d => broker_id_ok d.2) evs /\
              map (fun d => OrderEvent.event_id d.2) evs = map (uuid4_src w) ks /\
              NoDup ks /\
              Forall (fun k => uuid4_calls w <= k < uuid4_calls w') ks).
  { intros o k t n w1 Hok Hcl Heff Hsrc Hcalls ev w'. subst w'.
    rewrite on_event_eq.
    destruct (_order_index (client w1) !! OrderEvent.order_id ev) as [sid|].
    - destruct (_registered_strategies (client w1) !! sid) as [sink|].
      + exists [(sink, ev)], [uuid4_calls w]. cbn [snd record effects uuid4_src uuid4_calls].
        rewrite delivered_app, Heff, Hsrc, Hcalls.
        split; [reflexivity|]. split; [reflexivity|]. split; [lia|].
        split; [repeat constructor; exact Hok|]. split; [reflexivity|].
        split; [apply NoDup_singleton | repeat constructor; lia].
      + apply Hnone; cbn; [now rewrite Heff | exact Hsrc | lia].
    - apply Hnone; cbn [snd record effects uuid4_src uuid4_calls];
        [rewrite delivered_app, Heff; cbn; apply app_nil_r | exact Hsrc | lia]. }
  destruct c as [x| | |x sid|x|x p|x]; try discriminate Hc; cbn [perform].
  - destruct x as [| s | | |]; try solve [apply Hnone; cbn; auto].
    rewrite register_strategy_eq.
    destruct (_registered_strategies (client w) !! TradeStrategy.str s);
      apply Hnone; cbn; auto.
    rewrite delivered_app. cbn. apply app_nil_r.
  - apply Hnone; cbn; auto. rewrite delivered_app. cbn. apply app_nil_r.
  - apply Hnone; cbn; auto. rewrite delivered_app. cbn. apply app_nil_r.
  - cbn [submit_order]. destruct x as [o| | | |]; try solve [apply Hnone; cbn; auto].
    rewrite mock_submit_eq.
    destruct (_order_index (client w) !! Order.id o); [apply Hnone; cbn; auto|].
    cbn zeta.
    destruct (_registered_strategies (client w) !! sid) as [sink|];
      [|apply Hnone; cbn; auto; lia].
    exists [(sink, submitted_in o w); (sink, accepted_in o w); (sink, working_in o w)],
           [uuid4_calls w; 1 + uuid4_calls w; 2 + uuid4_calls w].
    cbn [snd effects uuid4_src uuid4_calls]. rewrite delivered_app.
    split; [reflexivity|]. split; [reflexivity|]. split; [lia|].
    split; [repeat constructor|]. split; [reflexivity|].
    split; [|repeat constructor; lia].
    repeat constructor; rewrite ?elem_of_cons, ?elem_of_nil; lia.
  - cbn [cancel_order]. destruct x as [o| | | |]; try solve [apply Hnone; cbn; auto].
    rewrite mock_cancel_eq. cbn zeta. apply Hone; try reflexivity; exact I.
  - cbn [modify_order]. destruct x as [o| | | |]; try solve [apply Hnone; cbn; auto].
    rewrite mock_modify_eq. cbn zeta. apply Hone; reflexivity.
Qed.

Lemma mock_run_events (calls : list Call) :
  Forall (fun c => is_on_event c = false) calls ->
  forall (w : World) (ks : list nat),
    Forall (fun d => broker_id_ok d.2) (delivered (effects w)) ->
    event_ids (effects w) = map (uuid4_src w) ks ->
    NoDup ks -> Forall (fun k => k < uuid4_calls w) ks ->
    uuid4_src (run Mock calls w).2 = uuid4_src w /\
    Forall (fun d => broker_id_ok d.2) (delivered (effects (run Mock calls w).2)) /\
    exists ks',
      event_ids (effects (run Mock calls w).2) = map (uuid4_src w) ks' /\
      NoDup ks' /\ Forall (fun k => k < uuid4_calls (run Mock calls w).2) ks'.
Proof.
  induction 1 as [|c rest Hc _ IH]; intros w ks Hok Hids Hnd Hlt.
  { split; [reflexivity|]. split; [exact Hok|]. now exists ks. }
  cbn [run].
  destruct (mock_step_events c w Hc) as (evs & new & Hd & Hsrc & Hle & Hok' & Hids' & Hnd' & Hrange).
  destruct (perform Mock c w) as [r w1]. cbn [snd] in *.
  assert (Hok1 : Forall (fun d => broker_id_ok d.2) (delivered (effects w1))).
  { rewrite Hd. now apply Forall_app. }
  assert (Hids1 : event_ids (effects w1) = map (uuid4_src w1) (ks ++ new)).
  { unfold event_ids in *. rewrite Hd, !map_app, Hids, Hids', Hsrc. reflexivity. }
  assert (Hnd1 : NoDup (ks ++ new)).
  { apply NoDup_app. split; [exact Hnd|]. split; [|exact Hnd'].
    intros k Hk Hk'. rewrite Forall_forall in Hlt, Hrange.
    specialize (Hlt k Hk). specialize (Hrange k Hk'). lia. }
  assert (Hlt1 : Forall (fun k => k < uuid4_calls w1) (ks ++ new)).
  { apply Forall_app. split.
    - eapply Forall_impl; [exact Hlt|]. cbn. intros; lia.
    - eapply Forall_impl; [exact Hrange|]. cbn. intros; lia. }
  destruct (IH w1 (ks ++ new) Hok1 Hids1 Hnd1 Hlt1) as (Hs & Hb & ks' & Hi & Hn & Hl).
  destruct (run Mock rest w1) as [rs w2]. cbn [snd] in *.
  split; [congruence|]. split; [exact Hb|].
  exists ks'. rewrite <- Hsrc. auto.
Qed.

(** X14: event ids are unique.  In a run of the mock client in which
    nothing is pushed into the inbound handler from outside, every event
    delivered carries the value of a [uuid4()] call of its own: when
    [uuid4] never returns the same value twice, no two delivered events
    share an [event_id]. *)
Theorem mock_event_ids_distinct
    (calls : list Call) (clock : nat -> Z) (uuids : nat -> Z) :
  Forall (fun c => is_on_event c = false) calls ->
  (forall n m, uuids n = uuids m -> n = m) ->
  NoDup (event_ids (effects (run Mock calls (fresh clock uuids)).2)).
Proof.
  intros Hcalls Hinj.
  destruct (mock_run_events calls Hcalls (fresh clock uuids) [])
    as (_ & _ & ks & Hids & Hnd & _);
    [constructor | reflexivity | constructor | constructor |].
  rewrite Hids. cbn [fresh uuid4_src].
  assert (Hinj' : Inj (=) (=) uuids) by exact Hinj.
  exact (NoDup_fmap_2 uuids ks Hnd).
Qed.

Lemma mock_event_ids_distinct_witness :
  Forall (fun c => is_on_event c = false) session /\
  (forall n m, uuids_a n = uuids_a m -> n = m) /\
  NoDup (event_ids (effects (run Mock session (fresh clock_a uuids_a)).2)).
Proof.
  assert (H1 : Forall (fun c => is_on_event c = false) session) by (repeat constructor).
  assert (H2 : forall n m, uuids_a n = uuids_a m -> n = m).
  { unfold uuids_a. intros n m H. lia. }
  split; [exact H1|]. split; [exact H2|].
  exact (mock_event_ids_distinct session clock_a uuids_a H1 H2).
Defined.

(** X15: the broker order id is a function of the order id.  In a run of
    the mock client in which nothing is pushed into the inbound handler
    from outside, every delivered event that carries a broker order id (a
    [Working] or a [Modified]) carries ["B"] followed by its own order
    id. *)
Theorem mock_broker_ids_follow_order_ids
    (calls : list Call) (clock : nat -> Z) (uuids : nat -> Z) :
  Forall (fun c => is_on_event c = false) calls ->
  Forall (fun d => broker_id_ok d.2)
         (delivered (effects (run Mock calls (fresh clock uuids)).2)).
Proof.
  intros Hcalls.
  destruct (mock_run_events calls Hcalls (fresh clock uuids) []) as (_ & Hok & _);
    [constructor | reflexivity | constructor | constructor | exact Hok].
Qed.

Lemma mock_broker_ids_follow_order_ids_witness :
  Forall (fun c => is_on_event c = false) session /\
  Forall (fun d => broker_id_ok d.2)
         (delivered (effects (run Mock session (fresh clock_a uuids_a)).2)).
Proof.
  assert (H1 : Forall (fun c => is_on_event c = false) session) by (repeat constructor).
  split; [exact H1|].
  exact (mock_broker_ids_follow_order_ids session clock_a uuids_a H1).
Defined.

(** X16: a whole life of an order on the mock client.  When the strategy's
    identity and the order's id are both new, registering the strategy,
    submitting the order under its identity, modifying it to a price and
    cancelling it all return normally, and the strategy's own sink receives,
    in this order and with nothing delivered to anyone in between,
    [Submitted], [Accepted], [Working], [Modified] with that price and
    [Cancelled], the two broker order ids being equal. *)
Theorem mock_order_lifecycle
    (s : TradeStrategy.t) (o : Order.t) (p : Decimal) (w : World) :
  _registered_strategies (client w) !! TradeStrategy.str s = None ->
  _order_index (client w) !! Order.id o = None ->
  exists w',
    run Mock [CallRegisterStrategy (PyStrategy s);
              CallSubmitOrder (PyOrder o) (TradeStrategy.str s);
              CallModifyOrder (PyOrder o) p;
              CallCancelOrder (PyOrder o)] w
      = ([Returned tt; Returned tt; Returned tt; Returned tt], w') /\
    map (fun d => (d.1, OrderEvent.order_id d.2, OrderEvent.kind d.2))
        (delivered (effects w')) =
    map (fun d => (d.1, OrderEvent.order_id d.2, OrderEvent.kind d.2))
        (delivered (effects w)) ++
    map (fun k => (BoundUpdateEvents (TradeStrategy.obj s), Order.id o, k))
        [Submitted; Accepted; Working ("B" +:+ Order.id o);
         Modified ("B" +:+ Order.id o) p; Cancelled].
Proof.
  intros Hreg Hidx. cbn [run perform submit_order modify_order cancel_order].
  rewrite register_strategy_eq, Hreg, mock_submit_eq.
  cbn -[MockExecClient.modify_order MockExecClient.cancel_order].
  rewrite Hidx, lookup_insert_eq.
  rewrite mock_modify_eq. cbn zeta. rewrite on_event_eq.
  cbn -[MockExecClient.cancel_order].
  rewrite !lookup_insert_eq.
  rewrite mock_cancel_eq. cbn zeta. rewrite on_event_eq. cbn.
  rewrite !lookup_insert_eq.
  eexists. split; [reflexivity|]. cbn.
  rewrite !delivered_app, !map_app. cbn. rewrite app_nil_r, <- !app_assoc. reflexivity.
Qed.

Lemma mock_order_lifecycle_witness :
  _registered_strategies (client world_a) !! TradeStrategy.str S_1 = None /\
  _order_index (client world_a) !! Order.id O_1 = None /\
  exists w',
    run Mock [CallRegisterStrategy (PyStrategy S_1);
              CallSubmitOrder (PyOrder O_1) (TradeStrategy.str S_1);
              CallModifyOrder (PyOrder O_1) (mkDecimal 105 (-1));
              CallCancelOrder (PyOrder O_1)] world_a
      = ([Returned tt; Returned tt; Returned tt; Returned tt], w').
Proof.
  assert (H1 : _registered_strategies (client world_a) !! TradeStrategy.str S_1 = None)
    by (vm_compute; reflexivity).
  assert (H2 : _order_index (client world_a) !! Order.id O_1 = None)
    by (vm_compute; reflexivity).
  split; [exact H1|]. split; [exact H2|].
  destruct (mock_order_lifecycle S_1 O_1 (mkDecimal 105 (-1)) world_a H1 H2)
    as (w' & Hrun & _).
  exists w'. exact Hrun.
Defined.
